(** * Announce-translate-bot

    A shallow embedding of the two cogs of the bot:

    - [cogs/announcements.py]: [Announcements.translate_text] and
      [Announcements.announce], the multi-language announcement fan-out;
    - [cogs/translation.py]: [Translation.on_message], the auto-translate
      listener;

    together with the parts of [config.py] and [utils/logger.py] they read.

    Everything the cogs obtain from discord.py and deep_translator (channel
    lookup, typing indicator, sending, translating, detecting) is an oracle
    of the environment [Env].  Each oracle sees the history of events so
    far, so an environment may answer the same call differently at
    different times, and each call that performs network traffic may raise.

    Text is Rocq's [string]; the literals of the source that hold emoji
    are kept as their UTF-8 bytes and are only ever concatenated.
    Concatenation, comparison, [startswith], [in], [replace] and slicing
    are the operations on sequences that Python has.  What [str.lower],
    [str.strip] and the pattern [\w] do to a text depends on the Unicode
    tables of the interpreter, which are no part of the repository.
    Where the code applies them to the text of a user or of a provider
    (the gates and the equivalence test of [on_message], the trimming of
    [announce], [find_channel_by_name]) they are functions of the
    environment, and what is proved there holds whatever they give.
    Module [Py] has them on ASCII text: the sample environments use
    these, and so do the places where the code looks for ASCII flags or
    normalises the names and codes of languages. *)

From Stdlib Require Import String Ascii List ZArith Arith Lia Bool DecimalString.
Import ListNotations.
Local Open Scope string_scope.
Local Open Scope list_scope.

Infix "+:+" := String.append (right associativity, at level 60).

(** ** Python string primitives *)

Module Py.

Definition nl : string := String (ascii_of_nat 10) "".

(** [str(n)] for an [int]. *)
Definition str_of_Z (z : Z) : string := NilZero.string_of_int (Z.to_int z).
Definition str_of_nat (n : nat) : string := NilZero.string_of_uint (Nat.to_uint n).

(** [s.lower()] on ASCII text: [A]-[Z] go to [a]-[z], every other
    character stays. *)
Definition lower_char (c : ascii) : ascii :=
  let n := nat_of_ascii c in
  if ((65 <=? n) && (n <=? 90))%nat then ascii_of_nat (n + 32) else c.

Fixpoint lower (s : string) : string :=
  match s with
  | EmptyString => EmptyString
  | String c s' => String (lower_char c) (lower s')
  end.

(** [c.isspace()] on ASCII text: tab, line feed, vertical tab, form
    feed, carriage return, the separators 0x1c-0x1f, and space. *)
Definition isspace (c : ascii) : bool :=
  let n := nat_of_ascii c in
  (((9 <=? n) && (n <=? 13)) || ((28 <=? n) && (n <=? 31)) || (n =? 32))%nat.

Fixpoint lstrip (s : string) : string :=
  match s with
  | EmptyString => EmptyString
  | String c s' => if isspace c then lstrip s' else s
  end.

Fixpoint rstrip (s : string) : string :=
  match s with
  | EmptyString => EmptyString
  | String c s' =>
      match rstrip s' with
      | EmptyString => if isspace c then EmptyString else String c EmptyString
      | r => String c r
      end
  end.

(** [s.strip()] on ASCII text *)
Definition strip (s : string) : string := rstrip (lstrip s).

(** [s.startswith(p)] *)
Definition startswith (s p : string) : bool := String.prefix p s.

(** [sub in s] *)
Fixpoint contains (sub s : string) : bool :=
  String.prefix sub s ||
  match s with
  | EmptyString => false
  | String _ s' => contains sub s'
  end.

(** [s.replace(old, new)] for a non-empty [old]: occurrences are found
    from the left and do not overlap.  [skip] counts the characters of
    the occurrence just replaced that are still to be dropped. *)
Fixpoint replace_from (old new : string) (skip : nat) (s : string) : string :=
  match s with
  | EmptyString => EmptyString
  | String c s' =>
      match skip with
      | S k => replace_from old new k s'
      | O =>
          if String.prefix old s
          then new +:+ replace_from old new (String.length old - 1) s'
          else String c (replace_from old new 0 s')
      end
  end.

Definition replace (old new s : string) : string := replace_from old new 0 s.

(** [s[:n]] *)
Definition take (n : nat) (s : string) : string := String.substring 0 n s.

(** [s[:n] + ("..." if len(s) > n else "")] *)
Definition ellipsis (n : nat) (s : string) : string :=
  take n s +:+ (if (n <? String.length s)%nat then "..." else "").

(** [\w] on ASCII text: letters, digits and the underscore. *)
Definition isword (c : ascii) : bool :=
  let n := nat_of_ascii c in
  (((48 <=? n) && (n <=? 57)) || ((65 <=? n) && (n <=? 90)) ||
   ((97 <=? n) && (n <=? 122)) || (n =? 95))%nat.

(** In UTF-8 the characters outside ASCII are made of the bytes from
    0x80 on.  In a text whose characters outside ASCII are letters
    (accented Latin, Japanese, Chinese) each such byte is part of a
    word. *)
Definition isword_letters (c : ascii) : bool :=
  isword c || (128 <=? nat_of_ascii c)%nat.

(** [re.findall(r'\b\w+\b', s)], given the word characters: [\w+] is
    greedy and both ends sit on a word boundary, so the matches are the
    maximal runs of word characters, left to right.  [cur] is the run
    being read. *)
Fixpoint findall_from (word : ascii -> bool) (cur : string) (s : string) : list string :=
  match s with
  | EmptyString => match cur with EmptyString => [] | _ => [cur] end
  | String c s' =>
      if word c then findall_from word (cur +:+ String c EmptyString) s'
      else match cur with
           | EmptyString => findall_from word EmptyString s'
           | _ => cur :: findall_from word EmptyString s'
           end
  end.

(** [re.findall(r'\b\w+\b', s)] on ASCII text *)
Definition findall_words (s : string) : list string :=
  findall_from isword EmptyString s.

(** [sep.join(l)] *)
Definition join (sep : string) (l : list string) : string := String.concat sep l.

(** [d.get(k, default)] on a dict kept as an association list in
    insertion order. *)
Fixpoint dict_get {V : Type} (d : list (string * V)) (k : string) (default : V) : V :=
  match d with
  | [] => default
  | (k', v) :: d' => if String.eqb k' k then v else dict_get d' k default
  end.

(** [x in l] for a list of ints *)
Definition mem (x : Z) (l : list Z) : bool := existsb (Z.eqb x) l.

End Py.

(** ** config.py *)

Record BotConfig := {
  command_prefix : string;
  auto_translate_channels : list Z;
  (** guild key -> (language code -> channel id) *)
  announcement_language_channels : list (string * list (string * Z));
  (** language code -> language name *)
  available_announcement_languages : list (string * string)
}.

Definition get_all_announcement_language_channels
    (config : BotConfig) (guild_id : Z) : list (string * Z) :=
  let guild_key := Py.str_of_Z guild_id in
  Py.dict_get (announcement_language_channels config) guild_key [].

(** ** utils/logger.py

    [bot.py] calls [setup_logging()] with its default level [logging.INFO]:
    records below it are dropped by the root logger. *)

Inductive Level := DEBUG | INFO | WARNING | ERROR.

Definition level_enabled (l : Level) : bool :=
  match l with DEBUG => false | _ => true end.

(** ** The environment and the events of a run *)

(** An exception is kept as the text [str(e)]. *)
Definition Exn := string.

Inductive Res (A : Type) : Type :=
| Ok (a : A)
| Raise (e : Exn).
Arguments Ok {A} a.
Arguments Raise {A} e.

Record Channel := {
  channel_id : Z;
  channel_name : string
}.

Record Embed := {
  embed_title : string;
  embed_color : Z;
  embed_fields : list (string * string * bool);   (* name, value, inline *)
  embed_footer : string
}.

Inductive Payload :=
| Text (content : string)
| Embedded (embed : Embed).

Inductive Event :=
| EvLog (level : Level) (msg : string)
| EvCtxSend (content : string) (r : Res unit)
| EvTyping (channel : Z) (r : Res unit)
| EvTranslate (target text : string) (r : Res string)
| EvDetect (text : string) (r : Res string)
| EvSend (channel : Z) (payload : Payload) (r : Res unit).

Definition Trace := list Event.

Record Env := {
  (** [bot.get_channel(id)]: a cache lookup, [None] when unknown *)
  get_channel : Trace -> Z -> option Channel;
  (** entering [async with channel.typing()] *)
  typing : Trace -> Channel -> Res unit;
  (** [await channel.send(...)] *)
  channel_send : Trace -> Channel -> Payload -> Res unit;
  (** [await ctx.send(text)], the reply to the invoking user *)
  ctx_send : Trace -> string -> Res unit;
  (** [GoogleTranslator(source='auto', target=t).translate(text)] *)
  google_translate : Trace -> string -> string -> Res string;
  (** [single_detection(text, api_key=None)] *)
  single_detection : Trace -> string -> Res string;
  (** [s.lower()] and [s.strip()] of the interpreter *)
  str_lower : string -> string;
  str_strip : string -> string;
  (** [re.findall(r'\b\w+\b', s)] *)
  re_findall_words : string -> list string
}.

(** ** Coroutines

    A coroutine is run on the history [h] of the events before it and
    gives its result with the events it emitted, oldest first.  What
    follows it runs on [h ++ emitted]. *)

Definition M (A : Type) : Type := Trace -> Res A * Trace.

Definition ret {A} (a : A) : M A := fun _ => (Ok a, []).

Definition bind {A B} (m : M A) (k : A -> M B) : M B :=
  fun h =>
    match m h with
    | (Ok a, t1) => let '(r, t2) := k a (h ++ t1) in (r, t1 ++ t2)
    | (Raise e, t1) => (Raise e, t1)
    end.

(** [try: body  except Exception as e: handler(e)] *)
Definition try_except {A} (body : M A) (handler : Exn -> M A) : M A :=
  fun h =>
    match body h with
    | (Ok a, t1) => (Ok a, t1)
    | (Raise e, t1) => let '(r, t2) := handler e (h ++ t1) in (r, t1 ++ t2)
    end.

Declare Scope coro_scope.
Delimit Scope coro_scope with coro.
Notation "x <- m ;; k" := (bind m (fun x => k))
  (at level 100, m at next level, right associativity) : coro_scope.
Notation "m ;; k" := (bind m (fun _ => k))
  (at level 100, right associativity) : coro_scope.
Local Open Scope coro_scope.

Definition log (l : Level) (msg : string) : M unit :=
  fun _ => (Ok tt, if level_enabled l then [EvLog l msg] else []).

Section Effects.
Variable env : Env.

Definition await_ctx_send (content : string) : M unit :=
  fun h => let r := ctx_send env h content in (r, [EvCtxSend content r]).

Definition await_typing (ch : Channel) : M unit :=
  fun h => let r := typing env h ch in (r, [EvTyping (channel_id ch) r]).

Definition await_send (ch : Channel) (p : Payload) : M unit :=
  fun h => let r := channel_send env h ch p in (r, [EvSend (channel_id ch) p r]).

Definition await_translate (target text : string) : M string :=
  fun h => let r := google_translate env h target text in
           (r, [EvTranslate target text r]).

Definition await_detect (text : string) : M string :=
  fun h => let r := single_detection env h text in (r, [EvDetect text r]).

Definition bot_get_channel (id : Z) : M (option Channel) :=
  fun h => (Ok (get_channel env h id), []).
End Effects.

(** ** cogs/announcements.py *)

(** What [announce] reads of its invocation context. *)
Record Context := {
  ctx_guild_id : Z;        (* ctx.guild.id *)
  ctx_author : string      (* str(ctx.author) *)
}.

(** The three ways one pass through the loop body of [announce] ends:
    falling through after [sent_count += 1], the [continue] of the
    missing channel, and the [except] clause. *)
Inductive Outcome := Sent | ChannelNotFound | SendFailed.

Section Announcements.
Variable env : Env.
Variable config : BotConfig.

(** [Announcements.translate_text] *)
Definition translate_text (text target_language : string) : M string :=
  try_except
    (await_translate env target_language text)
    (fun e =>
       log ERROR ("Translation failed for " +:+ target_language +:+ ": " +:+ e) ;;
       ret text).

(** [self.config.available_announcement_languages.get(lang_code, lang_code)] *)
Definition lang_name (lang_code : string) : string :=
  Py.dict_get (available_announcement_languages config) lang_code lang_code.

(** [announce], lines 41-47: the everyone flag and the cleaned message.
    The two flags are ASCII and hold neither [i] nor [k], the only ASCII
    letters that a character outside ASCII lowers to: a flag is in
    [message.lower()] exactly when it is in the message with its ASCII
    letters lowered. *)
Definition mention_requested (message : string) : bool :=
  Py.contains "--everyone" (Py.lower message) ||
  Py.contains "@everyone" (Py.lower message).

Definition clean_of (message : string) : string :=
  if mention_requested message
  then str_strip env (Py.replace "@everyone" "" (Py.replace "--everyone" "" message))
  else message.

(** lines 69-71 *)
Definition full_message_of (lang_code clean_message translated_message : string) : string :=
  let full_message := "**📢 Announcement**" +:+ Py.nl +:+ translated_message in
  if String.eqb lang_code "en" then full_message
  else full_message +:+ Py.nl +:+ Py.nl +:+ "*Original (English):* " +:+ clean_message.

(** lines 73-76: what is handed to [target_channel.send] *)
Definition content_of (mention_everyone : bool) (full_message : string) : string :=
  if mention_everyone then "@everyone" +:+ Py.nl +:+ full_message else full_message.

(** The body of the loop, lines 55-84, up to the update of the two
    counters, which [record] below performs for the exit taken. *)
Definition announce_destination
    (mention_everyone : bool) (clean_message lang_code : string) (channel_id : Z)
    : M Outcome :=
  try_except
    (target_channel <- bot_get_channel env channel_id ;;
     match target_channel with
     | None => ret ChannelNotFound
     | Some target_channel =>
         translated_message <-
           (if String.eqb lang_code "en" then ret clean_message
            else (await_typing env target_channel ;;
                  translate_text clean_message lang_code)) ;;
         let full_message := full_message_of lang_code clean_message translated_message in
         await_send env target_channel (Text (content_of mention_everyone full_message)) ;;
         log INFO ("Announcement sent to " +:+ channel_name target_channel
                   +:+ " (" +:+ lang_code +:+ ")") ;;
         ret Sent
     end)
    (fun e =>
       log ERROR ("Failed to send to " +:+ lang_name lang_code +:+ ": " +:+ e) ;;
       ret SendFailed).

(** The update of [(sent_count, failed_channels)] at each exit. *)
Definition record (lang_code : string) (o : Outcome) (st : nat * list string)
    : nat * list string :=
  let '(sent_count, failed_channels) := st in
  match o with
  | Sent => (sent_count + 1, failed_channels)
  | ChannelNotFound =>
      (sent_count, failed_channels ++ [lang_name lang_code +:+ " (channel not found)"])
  | SendFailed =>
      (sent_count, failed_channels ++ [lang_name lang_code +:+ " (error)"])
  end.

(** [for lang_code, channel_id in language_channels.items(): ...] *)
Fixpoint announce_loop
    (mention_everyone : bool) (clean_message : string)
    (language_channels : list (string * Z)) (st : nat * list string)
    : M (nat * list string) :=
  match language_channels with
  | [] => ret st
  | (lang_code, channel_id) :: rest =>
      o <- announce_destination mention_everyone clean_message lang_code channel_id ;;
      announce_loop mention_everyone clean_message rest (record lang_code o st)
  end.

(** lines 86-90 *)
Definition summary_text
    (sent_count : nat) (failed_channels : list string) (mention_everyone : bool) : string :=
  ("✅ Announcement Summary" +:+ Py.nl +:+
   "Successfully sent to " +:+ Py.str_of_nat sent_count +:+ " channels.")
  +:+ (match failed_channels with
       | [] => ""
       | _ => Py.nl +:+ "Failed/Skipped: " +:+ Py.join ", " failed_channels
       end)
  +:+ (if mention_everyone then Py.nl +:+ "@everyone was pinged in all channels." else "").

(** lines 51-92: the loop from fresh counters, then the summary. *)
Definition announce_fanout
    (mention_everyone : bool) (clean_message : string)
    (language_channels : list (string * Z)) : M unit :=
  st <- announce_loop mention_everyone clean_message language_channels (0, []) ;;
  await_ctx_send env (summary_text (fst st) (snd st) mention_everyone).

Definition no_channels_text : string :=
  "❌ No announcement language channels configured for this server." +:+ Py.nl +:+
  "Use `" +:+ command_prefix config +:+ "set_lang_channel` to configure channels first.".

(** [Announcements.announce] *)
Definition announce (ctx : Context) (message : string) : M unit :=
  try_except
    (let language_channels :=
       get_all_announcement_language_channels config (ctx_guild_id ctx) in
     match language_channels with
     | [] => await_ctx_send env no_channels_text
     | _ =>
         let mention_everyone := mention_requested message in
         let clean_message := clean_of message in
         (if mention_everyone
          then log INFO ("@everyone mention requested for announcement by "
                         +:+ ctx_author ctx)
          else ret tt) ;;
         await_ctx_send env "🔄 Translating and sending announcements..." ;;
         announce_fanout mention_everyone clean_message language_channels
     end)
    (fun e =>
       log ERROR ("Announcement error: " +:+ e) ;;
       await_ctx_send env "❌ Failed to send announcements. Please try again.").

End Announcements.

(** ** cogs/translation.py *)

Record Message := {
  author_bot : bool;                (* message.author.bot *)
  author : string;                  (* str(message.author) *)
  author_display_name : string;     (* message.author.display_name *)
  content : string;                 (* message.content *)
  channel : Channel                 (* message.channel *)
}.

Section Translation.
Variable env : Env.
Variable config : BotConfig.

(** [str(l)] for a list of ints *)
Definition repr_ids (l : list Z) : string :=
  "[" +:+ Py.join ", " (map Py.str_of_Z l) +:+ "]".

(** lines 353-373 *)
Definition translation_embed (message : Message) (detected_lang translated : string) : Embed :=
  let lang_display := if String.eqb detected_lang "auto" then "Unknown" else detected_lang in
  {| embed_title := "🔄 Auto Translation";
     embed_color := 15105570;       (* discord.Color.orange(), 0xe67e22 *)
     embed_fields :=
       [ ("Original (" +:+ lang_display +:+ ")", Py.ellipsis 500 (content message), false);
         ("Translation (English)", Py.ellipsis 500 translated, false) ];
     embed_footer := "From " +:+ author_display_name message |}.

(** lines 340-380: after the translation came back *)
Definition publish_if_different (message : Message) (detected_lang translated : string)
    : M unit :=
  let original_clean := str_strip env (str_lower env (content message)) in
  let translated_clean := str_strip env (str_lower env translated) in
  if negb (String.eqb translated_clean original_clean)
     && (0 <? String.length translated_clean)%nat
  then
    let original_words := re_findall_words env original_clean in
    let translated_words := re_findall_words env translated_clean in
    if list_eq_dec string_dec original_words translated_words
    then log INFO "Translation too similar to original, skipping"
    else
      (await_send env (channel message)
         (Embedded (translation_embed message detected_lang translated)) ;;
       log INFO ("Auto-translation sent for message from " +:+ author message))
  else log INFO "No significant translation difference, skipping".

(** lines 311-323 *)
Definition detect_language (message : Message) : M string :=
  try_except
    (detected_lang <- await_detect env (content message) ;;
     log INFO ("Detected language: " +:+ detected_lang) ;;
     ret detected_lang)
    (fun detect_error =>
       log WARNING ("Language detection failed: " +:+ detect_error
                    +:+ ", proceeding with auto-detection") ;;
       ret "auto").

(** line 307 *)
Definition auto_translating_text (message : Message) : string :=
  "Auto-translating message from " +:+ author message +:+ " in "
  +:+ channel_name (channel message) +:+ ": " +:+ Py.take 50 (content message).

(** [Translation.on_message] *)
Definition on_message (message : Message) : M unit :=
  if author_bot message || Py.startswith (content message) (command_prefix config)
  then ret tt
  else if String.eqb (str_strip env (content message)) ""
  then ret tt
  else
    log DEBUG ("Checking auto-translate for channel "
               +:+ Py.str_of_Z (channel_id (channel message))
               +:+ ", enabled channels: "
               +:+ repr_ids (auto_translate_channels config)) ;;
    if negb (Py.mem (channel_id (channel message)) (auto_translate_channels config))
    then ret tt
    else
      log INFO (auto_translating_text message) ;;
      try_except
        (detected_lang <- detect_language message ;;
         if String.eqb detected_lang "en"
         then log INFO "Message already in English, skipping translation"
         else
           (translated <- await_translate env "en" (content message) ;;
            log INFO ("Translation result: " +:+ Py.take 50 translated) ;;
            publish_if_different message detected_lang translated))
        (fun e =>
           log ERROR ("Auto-translation error: " +:+ e) ;;
           try_except
             (await_send env (channel message)
                (Text ("⚠️ Auto-translation failed: " +:+ Py.take 100 e)))
             (fun _ => ret tt)).

End Translation.

(** ** Reading a trace *)

Definition is_translate (e : Event) : bool :=
  match e with EvTranslate _ _ _ => true | _ => false end.

Definition is_send (e : Event) : bool :=
  match e with EvSend _ _ _ => true | _ => false end.

Definition is_typing (e : Event) : bool :=
  match e with EvTyping _ _ => true | _ => false end.

(** Calls of the translation provider and attempts to send to a channel,
    in a trace. *)
Definition translator_calls (t : Trace) : nat := length (filter is_translate t).
Definition send_attempts (t : Trace) : Trace := filter is_send t.

Definition is_publication (e : Event) : bool :=
  match e with EvSend _ (Embedded _) _ => true | _ => false end.

(** The translations [on_message] put to a channel: its embed sends. *)
Definition publications (t : Trace) : Trace := filter is_publication t.

(** Messages that reached a channel: the sends that returned. *)
Definition delivered (t : Trace) : list (Z * Payload) :=
  flat_map (fun e => match e with
                     | EvSend c p (Ok _) => [(c, p)]
                     | _ => []
                     end) t.

Definition is_sent (o : Outcome) : bool :=
  match o with Sent => true | _ => false end.

Definition count_sent (os : list Outcome) : nat := length (filter is_sent os).

(** The entry of [failed_channels] an outcome leaves, if any. *)
Definition failure_label (config : BotConfig) (lang_code : string) (o : Outcome)
    : list string :=
  match o with
  | Sent => []
  | ChannelNotFound => [lang_name config lang_code +:+ " (channel not found)"]
  | SendFailed => [lang_name config lang_code +:+ " (error)"]
  end.

Fixpoint failed_labels (config : BotConfig)
    (language_channels : list (string * Z)) (os : list Outcome) : list string :=
  match language_channels, os with
  | (lang_code, _) :: ds, o :: os' =>
      failure_label config lang_code o ++ failed_labels config ds os'
  | _, _ => []
  end.

(** The outcomes of the destinations of one run of the loop, in the order
    the loop meets them. *)
Fixpoint fanout_outcomes (env : Env) (config : BotConfig)
    (mention_everyone : bool) (clean_message : string)
    (language_channels : list (string * Z)) : M (list Outcome) :=
  match language_channels with
  | [] => ret []
  | (lang_code, channel_id) :: rest =>
      o <- announce_destination env config mention_everyone clean_message
             lang_code channel_id ;;
      os <- fanout_outcomes env config mention_everyone clean_message rest ;;
      ret (o :: os)
  end.

(** The checks of [on_message] before its [try], all passed. *)
Definition passes_gates (env : Env) (config : BotConfig) (message : Message) : bool :=
  negb (author_bot message || Py.startswith (content message) (command_prefix config))
  && negb (String.eqb (str_strip env (content message)) "")
  && Py.mem (channel_id (channel message)) (auto_translate_channels config).

(** ** Sample configuration and environments

    The sample texts are ASCII, and the environments give them the lower
    case, the trimming and the words of [Py]. *)

Definition demo_config : BotConfig := {|
  command_prefix := "!";
  auto_translate_channels := [500%Z];
  announcement_language_channels :=
    [("42", [("en", 101%Z); ("fr", 102%Z); ("de", 103%Z)])];
  available_announcement_languages :=
    [("tl", "Tagalog"); ("id", "Indonesian"); ("pt", "Portuguese"); ("en", "English");
     ("ko", "Korean"); ("zh", "Chinese"); ("ms", "Malaysian"); ("th", "Thai")]
|}.

Definition demo_ctx : Context := {| ctx_guild_id := 42; ctx_author := "operator#0001" |}.
Definition other_ctx : Context := {| ctx_guild_id := 7; ctx_author := "operator#0001" |}.

Definition demo_channel (id : Z) : Channel :=
  {| channel_id := id; channel_name := "news" |}.

(** Every call answers; the provider tags the text with the target. *)
Definition calm_env : Env := {|
  get_channel := fun _ id => Some (demo_channel id);
  typing := fun _ _ => Ok tt;
  channel_send := fun _ _ _ => Ok tt;
  ctx_send := fun _ _ => Ok tt;
  google_translate := fun _ target text => Ok ("[" +:+ target +:+ "] " +:+ text);
  single_detection := fun _ _ => Ok "fr";
  str_lower := Py.lower;
  str_strip := Py.strip;
  re_findall_words := Py.findall_words
|}.

(** Channel 102 is gone and the provider fails for German. *)
Definition scenario_env : Env := {|
  get_channel := fun _ id => if Z.eqb id 102 then None else Some (demo_channel id);
  typing := fun _ _ => Ok tt;
  channel_send := fun _ _ _ => Ok tt;
  ctx_send := fun _ _ => Ok tt;
  google_translate := fun _ target text =>
    if String.eqb target "de" then Raise "provider unavailable"
    else Ok ("[" +:+ target +:+ "] " +:+ text);
  single_detection := fun _ _ => Ok "fr";
  str_lower := Py.lower;
  str_strip := Py.strip;
  re_findall_words := Py.findall_words
|}.

(** The bot may not type in any channel. *)
Definition no_typing_env : Env := {|
  get_channel := fun _ id => Some (demo_channel id);
  typing := fun _ _ => Raise "403 Forbidden";
  channel_send := fun _ _ _ => Ok tt;
  ctx_send := fun _ _ => Ok tt;
  google_translate := fun _ target text => Ok ("[" +:+ target +:+ "] " +:+ text);
  single_detection := fun _ _ => Ok "fr";
  str_lower := Py.lower;
  str_strip := Py.strip;
  re_findall_words := Py.findall_words
|}.

(** The detector answers [en]. *)
Definition english_env : Env := {|
  get_channel := fun _ id => Some (demo_channel id);
  typing := fun _ _ => Ok tt;
  channel_send := fun _ _ _ => Ok tt;
  ctx_send := fun _ _ => Ok tt;
  google_translate := fun _ _ text => Ok text;
  single_detection := fun _ _ => Ok "en";
  str_lower := Py.lower;
  str_strip := Py.strip;
  re_findall_words := Py.findall_words
|}.

(** A provider with a fixed answer. *)
Definition fixed_env (answer : string) : Env := {|
  get_channel := fun _ id => Some (demo_channel id);
  typing := fun _ _ => Ok tt;
  channel_send := fun _ _ _ => Ok tt;
  ctx_send := fun _ _ => Ok tt;
  google_translate := fun _ _ _ => Ok answer;
  single_detection := fun _ _ => Ok "fr";
  str_lower := Py.lower;
  str_strip := Py.strip;
  re_findall_words := Py.findall_words
|}.

(** A provider with a fixed answer, and an interpreter for texts whose
    characters outside ASCII are letters without case. *)
Definition letters_env (detected answer : string) : Env := {|
  get_channel := fun _ id => Some (demo_channel id);
  typing := fun _ _ => Ok tt;
  channel_send := fun _ _ _ => Ok tt;
  ctx_send := fun _ _ => Ok tt;
  google_translate := fun _ _ _ => Ok answer;
  single_detection := fun _ _ => Ok detected;
  str_lower := Py.lower;
  str_strip := Py.strip;
  re_findall_words := Py.findall_from Py.isword_letters ""
|}.

Definition demo_message (text : string) : Message := {|
  author_bot := false;
  author := "ana#1234";
  author_display_name := "Ana";
  content := text;
  channel := demo_channel 500
|}.

(** A message on a channel that is not watched. *)
Definition unwatched_message : Message := {|
  author_bot := false;
  author := "ana#1234";
  author_display_name := "Ana";
  content := "Bonjour tout le monde";
  channel := demo_channel 999
|}.

(** ** More of the cogs

    The rest of what the two cogs and [config.py] do with the
    configuration.  A method of [BotConfig] changes the object it is
    called on, so the commands below run on the configuration and give
    the one they leave, also when they raise. *)

(** Python dicts with string keys, as association lists in insertion
    order with one entry a key. *)
Module Dict.

(** [k in d] *)
Fixpoint has {V : Type} (d : list (string * V)) (k : string) : bool :=
  match d with
  | [] => false
  | (k', _) :: d' => String.eqb k' k || has d' k
  end.

(** [d.get(k)] *)
Fixpoint lookup {V : Type} (d : list (string * V)) (k : string) : option V :=
  match d with
  | [] => None
  | (k', v) :: d' => if String.eqb k' k then Some v else lookup d' k
  end.

(** [d[k] = v]: a key that is there keeps its place, a new one goes last. *)
Fixpoint set {V : Type} (d : list (string * V)) (k : string) (v : V)
    : list (string * V) :=
  match d with
  | [] => [(k, v)]
  | (k', v') :: d' =>
      if String.eqb k' k then (k, v) :: d' else (k', v') :: set d' k v
  end.

(** [del d[k]] *)
Fixpoint del {V : Type} (d : list (string * V)) (k : string) : list (string * V) :=
  match d with
  | [] => []
  | (k', v') :: d' =>
      if String.eqb k' k then del d' k else (k', v') :: del d' k
  end.

Definition keys {V : Type} (d : list (string * V)) : list string := map fst d.

End Dict.

(** [l.remove(x)] for an [x] that is in [l]: the first occurrence goes. *)
Fixpoint list_remove (x : Z) (l : list Z) : list Z :=
  match l with
  | [] => []
  | y :: l' => if Z.eqb x y then l' else y :: list_remove x l'
  end.

(** [channel.mention] *)
Definition channel_mention (ch : Channel) : string :=
  "<#" +:+ Py.str_of_Z (channel_id ch) +:+ ">".

(** Assignments to the attributes of the configuration. *)
Definition with_auto_translate_channels (config : BotConfig) (l : list Z) : BotConfig :=
  {| command_prefix := command_prefix config;
     auto_translate_channels := l;
     announcement_language_channels := announcement_language_channels config;
     available_announcement_languages := available_announcement_languages config |}.

Definition with_announcement_language_channels
    (config : BotConfig) (d : list (string * list (string * Z))) : BotConfig :=
  {| command_prefix := command_prefix config;
     auto_translate_channels := auto_translate_channels config;
     announcement_language_channels := d;
     available_announcement_languages := available_announcement_languages config |}.

Definition with_available_announcement_languages
    (config : BotConfig) (d : list (string * string)) : BotConfig :=
  {| command_prefix := command_prefix config;
     auto_translate_channels := auto_translate_channels config;
     announcement_language_channels := announcement_language_channels config;
     available_announcement_languages := d |}.

(** Where [save_config] writes: the write is an oracle that may raise. *)
Record Storage := {
  config_file : string;
  write_config : Trace -> BotConfig -> Res unit
}.

(** A command: run on a configuration and a history, it gives its
    result, the configuration it leaves and the events it emitted. *)
Definition Cmd (A : Type) : Type := BotConfig -> Trace -> Res A * BotConfig * Trace.

Definition cret {A} (a : A) : Cmd A := fun c _ => (Ok a, c, []).

Definition cbind {A B} (m : Cmd A) (k : A -> Cmd B) : Cmd B :=
  fun c h =>
    match m c h with
    | (Ok a, c1, t1) => let '(r, c2, t2) := k a c1 (h ++ t1) in (r, c2, t1 ++ t2)
    | (Raise e, c1, t1) => (Raise e, c1, t1)
    end.

(** [try ... except Exception as e]: what the body changed stays changed. *)
Definition ctry {A} (body : Cmd A) (handler : Exn -> Cmd A) : Cmd A :=
  fun c h =>
    match body c h with
    | (Ok a, c1, t1) => (Ok a, c1, t1)
    | (Raise e, c1, t1) =>
        let '(r, c2, t2) := handler e c1 (h ++ t1) in (r, c2, t1 ++ t2)
    end.

(** A coroutine that only reads the configuration. *)
Definition perform {A} (m : BotConfig -> M A) : Cmd A :=
  fun c h => let '(r, t) := m c h in (r, c, t).

Definition modify (f : BotConfig -> BotConfig) : Cmd unit :=
  fun c _ => (Ok tt, f c, []).

Declare Scope cmd_scope.
Delimit Scope cmd_scope with cmd.
Notation "x <- m ;; k" := (cbind m (fun x => k))
  (at level 100, m at next level, right associativity) : cmd_scope.
Notation "m ;; k" := (cbind m (fun _ => k))
  (at level 100, right associativity) : cmd_scope.

Section ConfigMethods.
Variable disk : Storage.
Local Open Scope cmd_scope.

(** [BotConfig.save_config], lines 68-90: it catches what the write
    raises and answers [False]. *)
Definition save_config : Cmd bool :=
  fun c h =>
    match write_config disk h c with
    | Ok _ => (Ok true, c, [EvLog INFO ("Configuration saved to " +:+ config_file disk)])
    | Raise e => (Ok false, c, [EvLog ERROR ("Error saving config: " +:+ e)])
    end.

(** What [save_config] leaves in the log. *)
Definition save_trace (c : BotConfig) (h : Trace) : Trace :=
  match write_config disk h c with
  | Ok _ => [EvLog INFO ("Configuration saved to " +:+ config_file disk)]
  | Raise e => [EvLog ERROR ("Error saving config: " +:+ e)]
  end.

(** [BotConfig.add_auto_translate_channel] *)
Definition add_auto_translate_channel (channel_id : Z) : Cmd unit :=
  fun c =>
    (if negb (Py.mem channel_id (auto_translate_channels c))
     then
       modify (fun c => with_auto_translate_channels c
                          (auto_translate_channels c ++ [channel_id])) ;;
       save_config ;;
       cret tt
     else cret tt) c.

(** [BotConfig.remove_auto_translate_channel] *)
Definition remove_auto_translate_channel (channel_id : Z) : Cmd unit :=
  fun c =>
    (if Py.mem channel_id (auto_translate_channels c)
     then
       modify (fun c => with_auto_translate_channels c
                          (list_remove channel_id (auto_translate_channels c))) ;;
       save_config ;;
       cret tt
     else cret tt) c.

(** [BotConfig.set_announcement_language_channel] *)
Definition set_announcement_language_channel
    (guild_id : Z) (language_code : string) (channel_id : Z) : Cmd unit :=
  let guild_key := Py.str_of_Z guild_id in
  modify (fun c =>
            if negb (Dict.has (announcement_language_channels c) guild_key)
            then with_announcement_language_channels c
                   (Dict.set (announcement_language_channels c) guild_key [])
            else c) ;;
  modify (fun c =>
            let d := announcement_language_channels c in
            with_announcement_language_channels c
              (Dict.set d guild_key
                 (Dict.set (Py.dict_get d guild_key []) language_code channel_id))) ;;
  save_config ;;
  cret tt.

(** [BotConfig.remove_announcement_language_channel] *)
Definition remove_announcement_language_channel
    (guild_id : Z) (language_code : string) : Cmd unit :=
  let guild_key := Py.str_of_Z guild_id in
  fun c =>
    (let d := announcement_language_channels c in
     if Dict.has d guild_key
     then
       if Dict.has (Py.dict_get d guild_key []) language_code
       then
         modify (fun c =>
                   let d := announcement_language_channels c in
                   with_announcement_language_channels c
                     (Dict.set d guild_key
                        (Dict.del (Py.dict_get d guild_key []) language_code))) ;;
         save_config ;;
         cret tt
       else cret tt
     else cret tt) c.


(** The loop of [remove_announcement_language] over the guilds. *)
Fixpoint forget_language (language_code : string)
    (d : list (string * list (string * Z))) : list (string * list (string * Z)) :=
  match d with
  | [] => []
  | (guild_id, channels) :: d' =>
      (guild_id,
       if Dict.has channels language_code
       then Dict.del channels language_code
       else channels)
      :: forget_language language_code d'
  end.

(** [BotConfig.remove_announcement_language] *)
Definition remove_announcement_language (language_code : string) : Cmd unit :=
  fun c =>
    (if Dict.has (available_announcement_languages c) language_code
     then
       modify (fun c => with_available_announcement_languages c
                          (Dict.del (available_announcement_languages c) language_code)) ;;
       modify (fun c => with_announcement_language_channels c
                          (forget_language language_code
                             (announcement_language_channels c))) ;;
       save_config ;;
       cret tt
     else cret tt) c.

End ConfigMethods.

(** [BotConfig.get_announcement_language_channel] *)
Definition get_announcement_language_channel
    (config : BotConfig) (guild_id : Z) (language_code : string) : option Z :=
  let guild_key := Py.str_of_Z guild_id in
  Dict.lookup (Py.dict_get (announcement_language_channels config) guild_key [])
    language_code.

(** What the commands below read of their invocation. *)
Record Invocation := {
  inv_ctx : Context;
  inv_channel : Channel       (* ctx.channel *)
}.

Section ConfigCommands.
Variable env : Env.
Variable disk : Storage.
Local Open Scope cmd_scope.

Definition say (text : string) : Cmd unit := perform (fun _ => await_ctx_send env text).
Definition note (l : Level) (text : string) : Cmd unit := perform (fun _ => log l text).

(** [Translation.toggle_auto_translate], translation.py lines 203-224 *)
Definition toggle_auto_translate (inv : Invocation) (channel : option Channel)
    : Cmd unit :=
  ctry
    (let target_channel :=
       match channel with Some ch => ch | None => inv_channel inv end in
     fun c =>
       (if Py.mem (channel_id target_channel) (auto_translate_channels c)
        then
          remove_auto_translate_channel disk (channel_id target_channel) ;;
          say ("✅ Auto-translation disabled for " +:+ channel_mention target_channel) ;;
          note INFO ("Auto-translate disabled for " +:+ channel_name target_channel
                     +:+ " by " +:+ ctx_author (inv_ctx inv))
        else
          add_auto_translate_channel disk (channel_id target_channel) ;;
          say ("✅ Auto-translation enabled for " +:+ channel_mention target_channel) ;;
          note INFO ("Auto-translate enabled for " +:+ channel_name target_channel
                     +:+ " by " +:+ ctx_author (inv_ctx inv))) c)
    (fun e =>
       note ERROR ("Error toggling auto-translate: " +:+ e) ;;
       say "❌ Failed to toggle auto-translation.").




End ConfigCommands.

(** [Announcements.find_channel_by_name], announcements.py lines 24-28, on
    [guild.text_channels] *)
Fixpoint find_channel_by_name (env : Env) (text_channels : list Channel) (name : string)
    : option Channel :=
  match text_channels with
  | [] => None
  | ch :: rest =>
      if String.eqb (str_lower env (channel_name ch)) (str_lower env name) then Some ch
      else find_channel_by_name env rest name
  end.

(** [Announcements.announce_everyone], announcements.py lines 98-101 *)
Definition announce_everyone (env : Env) (config : BotConfig)
    (ctx : Context) (message : string) : M unit :=
  announce env config ctx (message +:+ " @everyone").

(** [Translation.language_aliases], translation.py lines 16-33 *)
Definition language_aliases : list (string * string) :=
  [ ("english", "en"); ("spanish", "es"); ("french", "fr"); ("german", "de");
    ("italian", "it"); ("portuguese", "pt"); ("russian", "ru"); ("japanese", "ja");
    ("korean", "ko"); ("chinese", "zh"); ("mandarin", "zh"); ("hindi", "hi");
    ("arabic", "ar"); ("dutch", "nl"); ("polish", "pl"); ("turkish", "tr") ].

(** [Translation.get_language_code], lines 35-54.  [supported] is what
    [GoogleTranslator().get_supported_languages()] gives, or what it
    raises. *)
Definition get_language_code (supported : Res (list string)) (language : string)
    : option string :=
  let language := Py.strip (Py.lower language) in
  match supported with
  | Ok supported_langs =>
      if existsb (String.eqb language) supported_langs then Some language
      else if Dict.has language_aliases language
      then Dict.lookup language_aliases language
      else None
  | Raise _ => Dict.lookup language_aliases language
  end.

(** ** More samples *)

Definition demo_disk : Storage := {|
  config_file := "config.json";
  write_config := fun _ _ => Ok tt
|}.

(** A disk that cannot be written. *)
Definition full_disk : Storage := {|
  config_file := "config.json";
  write_config := fun _ _ => Raise "No space left on device"
|}.

Definition demo_inv : Invocation := {|
  inv_ctx := demo_ctx;
  inv_channel := demo_channel 500
|}.

(** The detector raises; the provider answers [Hello]. *)
Definition no_detector_env : Env := {|
  get_channel := fun _ id => Some (demo_channel id);
  typing := fun _ _ => Ok tt;
  channel_send := fun _ _ _ => Ok tt;
  ctx_send := fun _ _ => Ok tt;
  google_translate := fun _ _ _ => Ok "Hello";
  single_detection := fun _ _ => Raise "you need to get an API_KEY";
  str_lower := Py.lower;
  str_strip := Py.strip;
  re_findall_words := Py.findall_words
|}.

(** The provider raises for every language. *)
Definition no_provider_env : Env := {|
  get_channel := fun _ id => Some (demo_channel id);
  typing := fun _ _ => Ok tt;
  channel_send := fun _ _ _ => Ok tt;
  ctx_send := fun _ _ => Ok tt;
  google_translate := fun _ _ _ => Raise "provider unavailable";
  single_detection := fun _ _ => Ok "fr";
  str_lower := Py.lower;
  str_strip := Py.strip;
  re_findall_words := Py.findall_words
|}.

(** One guild with one language channel. *)
Definition single_config : BotConfig := {|
  command_prefix := "!";
  auto_translate_channels := [];
  announcement_language_channels := [("42", [("en", 101%Z)])];
  available_announcement_languages := [("en", "English")]
|}.

(** * Properties *)

(** ** Proof tools *)

Ltac break_match :=
  match goal with
  | |- context [match ?x with _ => _ end] =>
      lazymatch x with
      | context [match _ with _ => _ end] => fail
      | _ => destruct x eqn:?
      end
  end.

Ltac unfold_coro :=
  unfold try_except, bind, ret, log, await_ctx_send, await_typing, await_send,
    await_translate, await_detect, bot_get_channel in *.

Ltac tidy :=
  repeat match goal with
         | H : (_, _) = (_, _) |- _ => inversion H; subst; clear H
         | u : unit |- _ => destruct u
         | H : String.eqb _ _ = true |- _ => apply String.eqb_eq in H
         | H : String.eqb _ _ = false |- _ => apply String.eqb_neq in H
         | H : exists _, _ |- _ => destruct H
         | H : _ /\ _ |- _ => destruct H
         end.

(** Runs a coroutine symbolically: one case per answer of the oracles. *)
Ltac run_cases :=
  unfold_coro; cbn;
  repeat (rewrite ?app_nil_r in *; break_match; cbn);
  tidy.

Section FanoutFacts.
Variable env : Env.
Variable config : BotConfig.

(** The loop body catches whatever is raised inside it. *)
Lemma announce_destination_total mention clean lang cid h :
  exists o t, announce_destination env config mention clean lang cid h = (Ok o, t).
Proof.
  unfold announce_destination, translate_text. run_cases; eauto.
Qed.

Lemma record_spec lang o sent failed :
  record config lang o (sent, failed) =
  (sent + (if is_sent o then 1 else 0), failed ++ failure_label config lang o).
Proof.
  destruct o; cbn; rewrite ?app_nil_r; f_equal; lia.
Qed.

(** The counters after the loop are the counters before it plus what the
    outcomes of the destinations add, in order. *)
Lemma announce_loop_outcomes mention clean ds :
  forall sent failed h,
  exists os t,
    fanout_outcomes env config mention clean ds h = (Ok os, t) /\
    length os = length ds /\
    announce_loop env config mention clean ds (sent, failed) h =
      (Ok (sent + count_sent os, failed ++ failed_labels config ds os), t).
Proof.
  induction ds as [|[lang cid] ds IH]; intros sent failed h.
  - exists [], []. cbn. unfold ret. rewrite app_nil_r, Nat.add_0_r. auto.
  - destruct (announce_destination_total mention clean lang cid h) as (o & t1 & Hd).
    cbn [announce_loop fanout_outcomes]. unfold bind. rewrite Hd.
    rewrite record_spec.
    destruct (IH (sent + (if is_sent o then 1 else 0))
                 (failed ++ failure_label config lang o) (h ++ t1))
      as (os & t2 & Hos & Hlen & Hloop).
    exists (o :: os), (t1 ++ t2).
    rewrite Hos, Hloop. cbn. unfold ret. rewrite app_nil_r.
    split; [reflexivity|]. split; [now rewrite Hlen|].
    unfold count_sent. cbn [filter].
    rewrite <- app_assoc.
    destruct o; cbn [is_sent length]; do 3 f_equal; lia.
Qed.

Lemma count_failed_labels ds : forall os,
  length os = length ds ->
  count_sent os + length (failed_labels config ds os) = length ds.
Proof.
  induction ds as [|[lang cid] ds IH]; intros [|o os] Hlen; try discriminate; auto.
  cbn in Hlen. injection Hlen as Hlen. specialize (IH os Hlen).
  unfold count_sent in *. cbn. rewrite length_app.
  destruct o; cbn; lia.
Qed.

Lemma fanout_outcomes_total mention clean ds : forall h,
  exists os t, fanout_outcomes env config mention clean ds h = (Ok os, t).
Proof.
  intros h. destruct (announce_loop_outcomes mention clean ds 0 [] h) as (os & t & H & _).
  eauto.
Qed.

(** The i-th outcome is the one of the i-th destination, met after the
    destinations before it. *)
Lemma fanout_outcomes_nth mention clean ds : forall h os t i lang cid,
  fanout_outcomes env config mention clean ds h = (Ok os, t) ->
  nth_error ds i = Some (lang, cid) ->
  exists o,
    nth_error os i = Some o /\
    fst (announce_destination env config mention clean lang cid
           (h ++ snd (fanout_outcomes env config mention clean (firstn i ds) h)))
    = Ok o.
Proof.
  induction ds as [|[l c] ds IH]; intros h os t i lang cid Hrun Hnth.
  - destruct i; discriminate.
  - cbn [fanout_outcomes] in Hrun. unfold bind in Hrun.
    destruct (announce_destination_total mention clean l c h) as (o & t1 & Hd).
    rewrite Hd in Hrun.
    destruct (fanout_outcomes_total mention clean ds (h ++ t1)) as (os' & t2 & Hos).
    rewrite Hos in Hrun. cbn in Hrun. injection Hrun as <- <-.
    destruct i as [|i].
    + cbn in Hnth. injection Hnth as -> ->.
      exists o. cbn. unfold ret. cbn. rewrite app_nil_r, Hd. auto.
    + cbn in Hnth. destruct (IH _ _ _ _ _ _ Hos Hnth) as (o' & Ho' & Hrun').
      exists o'. split; [exact Ho'|].
      cbn [firstn fanout_outcomes]. unfold bind. rewrite Hd.
      destruct (fanout_outcomes_total mention clean (firstn i ds) (h ++ t1))
        as (os'' & t3 & Hos'').
      rewrite Hos'' in *. cbn in *. rewrite app_nil_r, app_assoc. exact Hrun'.
Qed.

Lemma announce_loop_app mention clean ds1 : forall ds2 st h st1 t1,
  announce_loop env config mention clean ds1 st h = (Ok st1, t1) ->
  announce_loop env config mention clean (ds1 ++ ds2) st h =
  (let '(r, t2) := announce_loop env config mention clean ds2 st1 (h ++ t1) in
   (r, t1 ++ t2)).
Proof.
  induction ds1 as [|[l c] ds1 IH]; intros ds2 st h st1 t1 Hrun.
  - cbn in Hrun. unfold ret in Hrun. injection Hrun as <- <-.
    cbn. rewrite app_nil_r. now destruct (announce_loop _ _ _ _ _ _ _).
  - cbn [announce_loop app] in *. unfold bind in *.
    destruct (announce_destination_total mention clean l c h) as (o & td & Hd).
    rewrite Hd in *.
    destruct (announce_loop env config mention clean ds1 (record config l o st) (h ++ td))
      as [r t'] eqn:Hl.
    injection Hrun as -> <-.
    rewrite (IH ds2 _ _ _ _ Hl).
    rewrite <- !app_assoc.
    destruct (announce_loop env config mention clean ds2 st1 (h ++ td ++ t')).
    now rewrite app_assoc.
Qed.

Lemma delivered_app t1 t2 : delivered (t1 ++ t2) = delivered t1 ++ delivered t2.
Proof. unfold delivered. apply flat_map_app. Qed.

(** C5. For a destinations map with k entries, one run of the fan-out
    yields exactly k outcomes, each one of [Sent], [ChannelNotFound] and
    [SendFailed]; the i-th outcome is that of the i-th entry in the
    order of the map; the count in the summary is the number of [Sent]
    outcomes, and the failed entries are listed in the same order. *)
Theorem fanout_one_outcome_per_destination mention clean ds h :
  exists os t,
    fanout_outcomes env config mention clean ds h = (Ok os, t) /\
    length os = length ds /\
    (forall i lang cid,
        nth_error ds i = Some (lang, cid) ->
        exists o,
          nth_error os i = Some o /\
          fst (announce_destination env config mention clean lang cid
                 (h ++ snd (fanout_outcomes env config mention clean (firstn i ds) h)))
          = Ok o) /\
    announce_loop env config mention clean ds (0, []) h =
      (Ok (count_sent os, failed_labels config ds os), t) /\
    count_sent os + length (failed_labels config ds os) = length ds /\
    announce_fanout env config mention clean ds h =
      (let s := summary_text (count_sent os) (failed_labels config ds os) mention in
       let r := ctx_send env (h ++ t) s in
       (r, t ++ [EvCtxSend s r])).
Proof.
  destruct (announce_loop_outcomes mention clean ds 0 [] h)
    as (os & t & Hos & Hlen & Hloop).
  cbn in Hloop.
  exists os, t. repeat split; auto.
  - intros i lang cid Hnth. eapply fanout_outcomes_nth; eauto.
  - now apply count_failed_labels.
  - unfold announce_fanout, bind. rewrite Hloop. reflexivity.
Qed.

(** What one pass through the loop body does: it tries the destination
    once, delivers exactly when it ends in [Sent], and every failure on
    the way decides the outcome or is logged. *)
Lemma announce_destination_facts mention clean lang cid h o td :
  announce_destination env config mention clean lang cid h = (Ok o, td) ->
  (length (filter is_typing td) <= 1 /\ translator_calls td <= 1 /\
   length (send_attempts td) <= 1) /\
  length (delivered td) = (if is_sent o then 1 else 0) /\
  (get_channel env h cid = None -> o = ChannelNotFound) /\
  (forall c e, In (EvTyping c (Raise e)) td -> o = SendFailed) /\
  (forall c p e, In (EvSend c p (Raise e)) td -> o = SendFailed) /\
  (forall e, In (EvTranslate lang clean (Raise e)) td ->
             In (EvLog ERROR ("Translation failed for " +:+ lang +:+ ": " +:+ e)) td).
Proof.
  unfold announce_destination, translate_text, translator_calls, send_attempts.
  unfold_coro. cbn.
  rewrite ?app_nil_r.
  destruct (get_channel env h cid) as [ch|]; cbn;
    [destruct (String.eqb lang "en"); cbn|].
  - destruct (channel_send env _ _ _) as [[]|e1] eqn:Hs; cbn;
      intros Heq; injection Heq as <- <-; cbn;
      repeat split; auto; intros; intuition (try discriminate; try congruence).
  - destruct (typing env h ch) as [[]|e0]; cbn.
    + destruct (google_translate env _ lang clean) as [tr|e1]; cbn;
        (destruct (channel_send env _ _ _) as [[]|e2] eqn:Hs; cbn;
         intros Heq; injection Heq as <- <-; cbn;
         repeat split; auto; intros; intuition (try discriminate; try congruence)).
    + intros Heq; injection Heq as <- <-; cbn;
        repeat split; auto; intros; intuition (try discriminate; try congruence).
  - intros Heq; injection Heq as <- <-; cbn;
      repeat split; auto; intros; intuition (try discriminate; try congruence).
Qed.

(** After a provider call that raised, the clean text is what is sent,
    and the send alone decides the outcome. *)
Lemma translation_failure_outcome mention clean lang cid h o td e :
  announce_destination env config mention clean lang cid h = (Ok o, td) ->
  In (EvTranslate lang clean (Raise e)) td ->
  exists c r,
    In (EvSend c (Text (content_of mention (full_message_of lang clean clean))) r) td /\
    (o = Sent <-> r = Ok tt).
Proof.
  unfold announce_destination, translate_text. unfold_coro. cbn.
  rewrite ?app_nil_r.
  destruct (get_channel env h cid) as [ch|]; cbn;
    [destruct (String.eqb lang "en"); cbn|].
  - destruct (channel_send env _ _ _) as [[]|e1]; cbn;
      intros Heq; injection Heq as <- <-; cbn;
      intros; intuition discriminate.
  - destruct (typing env h ch) as [[]|e0]; cbn.
    + destruct (google_translate env _ lang clean) as [tr|e1]; cbn;
        (destruct (channel_send env _ _ _) as [[]|e2]; cbn;
         intros Heq; injection Heq as <- <-; cbn; intros Hin;
         try (exfalso; intuition discriminate);
         eexists _, _; (split; [right; right; right; left; reflexivity|]);
         split; intros; (reflexivity || discriminate)).
    + intros Heq; injection Heq as <- <-; cbn; intros; intuition discriminate.
  - intros Heq; injection Heq as <- <-; cbn; intros; intuition discriminate.
Qed.

(** C7, as the code has it.  A destination that fails does not stop the
    loop: whatever the outcome [o] of a destination, the destinations
    after it are processed, from the counters with [o] recorded.  The
    destination is tried once: at most one typing indicator, one
    provider call and one send.  Its outcome changes the counters for
    itself only: [Sent] adds one to the count, any other outcome adds
    one entry under its language name to the failed list.  A channel
    that does not resolve and a typing indicator or send that raises
    give such an outcome.  A provider call that raises does not: it is
    written to the error log, the clean text is sent, and the outcome is
    [Sent] exactly when that send returns.  What was delivered before
    stays in the run and the count never goes down. *)
Theorem destination_failures_are_local mention clean ds1 lang cid ds2 st h :
  exists st1 t1 o td st2 t2,
    (* the destinations before, this one, and the ones after it *)
    announce_loop env config mention clean ds1 st h = (Ok st1, t1) /\
    announce_destination env config mention clean lang cid (h ++ t1) = (Ok o, td) /\
    announce_loop env config mention clean ds2 (record config lang o st1)
      (h ++ t1 ++ td) = (Ok st2, t2) /\
    announce_loop env config mention clean (ds1 ++ (lang, cid) :: ds2) st h =
      (Ok st2, t1 ++ td ++ t2) /\
    (* one attempt *)
    (length (filter is_typing td) <= 1 /\ translator_calls td <= 1 /\
     length (send_attempts td) <= 1) /\
    (* the outcome is recorded for this destination *)
    record config lang o st1 =
      (fst st1 + (if is_sent o then 1 else 0),
       snd st1 ++ failure_label config lang o) /\
    length (failure_label config lang o) = (if is_sent o then 0 else 1) /\
    length (delivered td) = (if is_sent o then 1 else 0) /\
    (* a failure of the transport is recorded *)
    (get_channel env (h ++ t1) cid = None -> o = ChannelNotFound) /\
    (forall c e, In (EvTyping c (Raise e)) td -> o = SendFailed) /\
    (forall c p e, In (EvSend c p (Raise e)) td -> o = SendFailed) /\
    (* but for a failure of the provider, which is logged *)
    (forall e, In (EvTranslate lang clean (Raise e)) td ->
               In (EvLog ERROR ("Translation failed for " +:+ lang +:+ ": " +:+ e)) td /\
               exists c r,
                 In (EvSend c (Text (content_of mention (full_message_of lang clean clean))) r)
                    td /\
                 (o = Sent <-> r = Ok tt)) /\
    (* nothing is undone *)
    (forall d, In d (delivered (t1 ++ td)) -> In d (delivered (t1 ++ td ++ t2))) /\
    fst st <= fst st1 /\ fst st1 <= fst (record config lang o st1) /\
    fst (record config lang o st1) <= fst st2.
Proof.
  destruct st as [sent failed].
  destruct (announce_loop_outcomes mention clean ds1 sent failed h)
    as (os1 & t1 & _ & _ & H1).
  destruct (announce_destination_total mention clean lang cid (h ++ t1))
    as (o & td & Hd).
  set (st1 := (sent + count_sent os1, failed ++ failed_labels config ds1 os1)) in *.
  destruct (record config lang o st1) as [sent' failed'] eqn:Hrec.
  destruct (announce_loop_outcomes mention clean ds2 sent' failed' (h ++ t1 ++ td))
    as (os2 & t2 & _ & _ & H2).
  exists st1, t1, o, td, (sent' + count_sent os2, failed' ++ failed_labels config ds2 os2), t2.
  rewrite Hrec.
  assert (Hrec' := record_spec lang o (fst st1) (snd st1)).
  change (fst st1, snd st1) with st1 in Hrec'. rewrite Hrec in Hrec'.
  destruct (announce_destination_facts _ _ _ _ _ _ _ Hd)
    as (Honce & Hdelivered & Hmissing & Htyping & Hsend & Hprovider).
  split; [exact H1|]. split; [exact Hd|]. split; [exact H2|].
  split.
  { rewrite (announce_loop_app mention clean ds1 _ _ _ _ _ H1).
    cbn [announce_loop]. unfold bind. rewrite Hd, Hrec.
    rewrite <- app_assoc. rewrite H2. reflexivity. }
  split; [exact Honce|]. split; [exact Hrec'|].
  split; [destruct o; reflexivity|].
  split; [exact Hdelivered|]. split; [exact Hmissing|].
  split; [exact Htyping|]. split; [exact Hsend|].
  split.
  { intros e He. split; [now apply Hprovider|].
    exact (translation_failure_outcome _ _ _ _ _ _ _ _ Hd He). }
  split.
  { intros d Hin. rewrite !delivered_app in *. rewrite !in_app_iff in *. tauto. }
  injection Hrec' as -> _. cbn. lia.
Qed.

(** C4, as the code has it.  The provider is called for a destination
    exactly when its channel resolves, its language code is not [en],
    and the typing indicator on the channel could be started; it is
    never called twice, and neither a missing channel nor the language
    [en] causes a call. *)
Theorem translator_called_iff mention clean lang cid h :
  let t := snd (announce_destination env config mention clean lang cid h) in
  (translator_calls t = 1 <->
     exists ch, get_channel env h cid = Some ch /\ lang <> "en" /\
                typing env h ch = Ok tt) /\
  translator_calls t <= 1 /\
  (get_channel env h cid = None -> translator_calls t = 0) /\
  (lang = "en" -> translator_calls t = 0).
Proof.
  unfold announce_destination, translate_text, translator_calls.
  run_cases; cbn.
  all: repeat split; intros; tidy; try lia; try congruence; eauto.
Qed.

(** C1, as the code has it.  When the provider fails for a destination
    whose channel resolves and whose language is not [en],
    [translate_text] logs the failure and hands back the clean text; the
    announcement with the clean text as its body is sent to the channel,
    once, and the destination counts as sent when that send returns (it
    is recorded as failed only when the send itself raises). *)
Theorem translator_failure_sends_source_text mention clean lang cid h ch e :
  get_channel env h cid = Some ch ->
  lang <> "en" ->
  typing env h ch = Ok tt ->
  google_translate env (h ++ [EvTyping (channel_id ch) (Ok tt)]) lang clean = Raise e ->
  let payload := Text (content_of mention (full_message_of lang clean clean)) in
  let attempt :=
    [ EvTyping (channel_id ch) (Ok tt);
      EvTranslate lang clean (Raise e);
      EvLog ERROR ("Translation failed for " +:+ lang +:+ ": " +:+ e) ] in
  announce_destination env config mention clean lang cid h =
  match channel_send env (h ++ attempt) ch payload with
  | Ok _ =>
      (Ok Sent,
       attempt ++
       [ EvSend (channel_id ch) payload (Ok tt);
         EvLog INFO ("Announcement sent to " +:+ channel_name ch
                     +:+ " (" +:+ lang +:+ ")") ])
  | Raise e' =>
      (Ok SendFailed,
       attempt ++
       [ EvSend (channel_id ch) payload (Raise e');
         EvLog ERROR ("Failed to send to " +:+ lang_name config lang +:+ ": " +:+ e') ])
  end.
Proof.
  intros Hch Hlang Htyping Hprov. cbn zeta.
  apply String.eqb_neq in Hlang.
  unfold announce_destination, translate_text. unfold_coro. cbn.
  rewrite !app_nil_r, Hch, Hlang, Htyping. cbn.
  rewrite Hprov. cbn. rewrite <- ?app_assoc. cbn.
  destruct (channel_send env _ ch _) as [[]|e']; reflexivity.
Qed.

(** C6. With no destination configured for the guild, [announce] tells
    the caller so at once and does nothing else towards a channel: no
    typing indicator, no provider call, no send.  If the reply itself
    raises, the general failure reply is all that follows. *)
Theorem announce_without_destinations ctx message h :
  get_all_announcement_language_channels config (ctx_guild_id ctx) = [] ->
  let t := snd (announce env config ctx message h) in
  (exists r rest, t = EvCtxSend (no_channels_text config) r :: rest /\
                  (r = Ok tt -> rest = [] /\ fst (announce env config ctx message h) = Ok tt)) /\
  translator_calls t = 0 /\
  send_attempts t = [] /\
  filter is_typing t = [].
Proof.
  intros Hnone. unfold announce. rewrite Hnone.
  unfold translator_calls, send_attempts. run_cases; cbn.
  all: repeat split; auto.
  all: eexists _, _; split; [reflexivity|]; intros; try discriminate; auto.
Qed.

(** With destinations configured and the progress notice delivered,
    [announce] runs the fan-out; only a summary that cannot be sent adds
    anything after it. *)
Lemma announce_runs_fanout ctx message h :
  let ds := get_all_announcement_language_channels config (ctx_guild_id ctx) in
  let mention := mention_requested message in
  let noted :=
    if mention
    then [EvLog INFO ("@everyone mention requested for announcement by "
                      +:+ ctx_author ctx)]
    else [] in
  let progress := "🔄 Translating and sending announcements..." in
  let before := noted ++ [EvCtxSend progress (Ok tt)] in
  ds <> [] ->
  ctx_send env (h ++ noted) progress = Ok tt ->
  exists tail,
    snd (announce env config ctx message h) =
      before
      ++ snd (announce_fanout env config mention (clean_of env message) ds (h ++ before))
      ++ tail /\
    (fst (announce_fanout env config mention (clean_of env message) ds (h ++ before)) = Ok tt ->
     tail = []).
Proof.
  cbn zeta. intros Hds Hprogress.
  unfold announce.
  destruct (get_all_announcement_language_channels config (ctx_guild_id ctx))
    as [|d ds] eqn:Hget; [congruence|].
  set (fanout := announce_fanout env config (mention_requested message)
                   (clean_of env message) (d :: ds)).
  unfold try_except, bind, await_ctx_send.
  destruct (mention_requested message); unfold log, ret; cbn [level_enabled];
    cbn [app] in *; rewrite ?app_nil_r in *; rewrite Hprogress; cbn [app].
  all: rewrite <- ?app_assoc; cbn [app].
  all: destruct (fanout _) as [[[]|e] t]; cbn.
  all: try (exists []; rewrite app_nil_r; split; [reflexivity | auto]; fail).
  all: eexists; split; [reflexivity | discriminate].
Qed.

End FanoutFacts.

(** ** The fan-out on sample runs *)

(** C1 fails as stated.  With destinations [en], [fr], [de], the channel
    of [fr] gone and the provider failing for [de]: the provider call for
    [de] raises, yet the untranslated text is delivered to the channel of
    [de], the outcome of [de] is [Sent], and the summary counts two
    channels and lists [fr] only. *)
Lemma scenario_german_sent_untranslated :
  let text := "Server maintenance at noon" in
  let destinations := [("en", 101%Z); ("fr", 102%Z); ("de", 103%Z)] in
  let t := snd (announce scenario_env demo_config demo_ctx text []) in
  get_all_announcement_language_channels demo_config (ctx_guild_id demo_ctx)
    = destinations /\
  In (EvTranslate "de" text (Raise "provider unavailable")) t /\
  In (103%Z, Text ("**📢 Announcement**" +:+ Py.nl +:+ text +:+ Py.nl +:+ Py.nl
                   +:+ "*Original (English):* " +:+ text))
     (delivered t) /\
  fst (fanout_outcomes scenario_env demo_config false text destinations [])
    = Ok [Sent; ChannelNotFound; Sent] /\
  In (EvCtxSend (summary_text 2 ["fr (channel not found)"] false) (Ok tt)) t.
Proof.
  cbn zeta. repeat split; vm_compute; auto 20.
Qed.

Lemma translator_failure_sends_source_text_witness :
  let text := "Server maintenance at noon" in
  let payload := Text (content_of false (full_message_of "de" text text)) in
  get_channel scenario_env [] 103 = Some (demo_channel 103) /\
  "de" <> "en" /\
  typing scenario_env [] (demo_channel 103) = Ok tt /\
  google_translate scenario_env ([] ++ [EvTyping 103 (Ok tt)]) "de" text
    = Raise "provider unavailable" /\
  announce_destination scenario_env demo_config false text "de" 103 [] =
    (Ok Sent,
     [ EvTyping 103 (Ok tt);
       EvTranslate "de" text (Raise "provider unavailable");
       EvLog ERROR "Translation failed for de: provider unavailable";
       EvSend 103 payload (Ok tt);
       EvLog INFO "Announcement sent to news (de)" ]).
Proof.
  cbn zeta.
  assert (Hlang : "de" <> "en") by discriminate.
  split; [reflexivity|]. split; [exact Hlang|].
  split; [reflexivity|]. split; [reflexivity|].
  exact (translator_failure_sends_source_text scenario_env demo_config false
           "Server maintenance at noon" "de" 103 [] (demo_channel 103)
           "provider unavailable" eq_refl Hlang eq_refl eq_refl).
Defined.

(** C7 fails as stated.  The provider fails for [de], the one
    destination of this run: the failure is in the error log only.  The
    outcome of [de] is [Sent], the count of sent channels is one and the
    list of failed channels is empty. *)
Lemma translation_failure_is_not_recorded :
  let text := "Server maintenance at noon" in
  let run := announce_loop scenario_env demo_config false text [("de", 103%Z)] (0, []) [] in
  In (EvTranslate "de" text (Raise "provider unavailable")) (snd run) /\
  fst (fanout_outcomes scenario_env demo_config false text [("de", 103%Z)] []) = Ok [Sent] /\
  fst run = Ok (1, []) /\
  summary_text 1 [] false
    = "✅ Announcement Summary" +:+ Py.nl +:+ "Successfully sent to 1 channels.".
Proof.
  cbn zeta. repeat split; vm_compute; auto 20.
Qed.

(** C2 fails on the code.  The flag is looked for in the lower-cased
    message but removed in its literal spelling only: an upper-case flag
    sets the mention and stays in the clean text, which is both sent and
    handed to the provider. *)
Theorem uppercase_everyone_flag_survives :
  let message := "@EVERYONE sale today" in
  let t := snd (announce calm_env demo_config demo_ctx message []) in
  mention_requested message = true /\
  clean_of calm_env message = "@EVERYONE sale today" /\
  Py.contains "@everyone" (Py.lower (clean_of calm_env message)) = true /\
  In (101%Z, Text ("@everyone" +:+ Py.nl +:+ "**📢 Announcement**" +:+ Py.nl
                   +:+ "@EVERYONE sale today"))
     (delivered t) /\
  In (EvTranslate "fr" "@EVERYONE sale today" (Ok "[fr] @EVERYONE sale today")) t.
Proof.
  cbn zeta. repeat split; vm_compute; auto 20.
Qed.

(** The two removals run one after the other, so the second can put a
    flag together: this lower-case message keeps a flag too. *)
Example removal_can_assemble_a_flag :
  mention_requested "--every@everyoneone at noon" = true /\
  clean_of calm_env "--every@everyoneone at noon" = "--everyone at noon".
Proof. split; reflexivity. Qed.

(** Where the flag is spelled as the code removes it, it is gone. *)
Example literal_flag_is_removed :
  clean_of calm_env "Patch notes are out --everyone" = "Patch notes are out" /\
  clean_of calm_env "@everyone Patch notes are out" = "Patch notes are out".
Proof. split; reflexivity. Qed.

(** C4 fails as stated.  The channel resolves and the language is [fr],
    but the typing indicator is refused: the provider is not called and
    the destination is recorded as failed. *)
Lemma typing_failure_skips_translator :
  let run := announce_destination no_typing_env demo_config false "Hello" "fr" 102 [] in
  get_channel no_typing_env [] 102 = Some (demo_channel 102) /\
  "fr" <> "en" /\
  translator_calls (snd run) = 0 /\
  run = (Ok SendFailed,
         [ EvTyping 102 (Raise "403 Forbidden");
           EvLog ERROR "Failed to send to fr: 403 Forbidden" ]).
Proof.
  cbn zeta. repeat split; try reflexivity. discriminate.
Qed.

Lemma announce_without_destinations_witness :
  get_all_announcement_language_channels demo_config (ctx_guild_id other_ctx) = [] /\
  (let t := snd (announce calm_env demo_config other_ctx "Hello" []) in
   (exists r rest,
       t = EvCtxSend (no_channels_text demo_config) r :: rest /\
       (r = Ok tt ->
        rest = [] /\ fst (announce calm_env demo_config other_ctx "Hello" []) = Ok tt)) /\
   translator_calls t = 0 /\
   send_attempts t = [] /\
   filter is_typing t = []).
Proof.
  split; [reflexivity|].
  apply (announce_without_destinations calm_env demo_config other_ctx "Hello" []).
  reflexivity.
Defined.

(** The scenario run in full. *)
Example scenario_run :
  announce scenario_env demo_config demo_ctx "Hello" [] =
  (Ok tt,
   [ EvCtxSend "🔄 Translating and sending announcements..." (Ok tt);
     EvSend 101 (Text ("**📢 Announcement**" +:+ Py.nl +:+ "Hello")) (Ok tt);
     EvLog INFO "Announcement sent to news (en)";
     EvTyping 103 (Ok tt);
     EvTranslate "de" "Hello" (Raise "provider unavailable");
     EvLog ERROR "Translation failed for de: provider unavailable";
     EvSend 103 (Text ("**📢 Announcement**" +:+ Py.nl +:+ "Hello" +:+ Py.nl +:+ Py.nl
                       +:+ "*Original (English):* Hello")) (Ok tt);
     EvLog INFO "Announcement sent to news (de)";
     EvCtxSend ("✅ Announcement Summary" +:+ Py.nl
                +:+ "Successfully sent to 2 channels." +:+ Py.nl
                +:+ "Failed/Skipped: fr (channel not found)") (Ok tt) ]).
Proof. reflexivity. Qed.

Section ListenerFacts.
Variable env : Env.
Variable config : BotConfig.

Lemma passes_gates_inv message :
  passes_gates env config message = true ->
  (author_bot message || Py.startswith (content message) (command_prefix config)) = false /\
  String.eqb (str_strip env (content message)) "" = false /\
  Py.mem (channel_id (channel message)) (auto_translate_channels config) = true.
Proof.
  unfold passes_gates. rewrite !andb_true_iff, !negb_true_iff. tauto.
Qed.

(** What [on_message] does once the gates are passed. *)
Lemma on_message_gated_in message h :
  passes_gates env config message = true ->
  on_message env config message h =
  ((log INFO (auto_translating_text message) ;;
    try_except
      (detected_lang <- detect_language env message ;;
       if String.eqb detected_lang "en"
       then log INFO "Message already in English, skipping translation"
       else
         (translated <- await_translate env "en" (content message) ;;
          log INFO ("Translation result: " +:+ Py.take 50 translated) ;;
          publish_if_different env message detected_lang translated))
      (fun e =>
         log ERROR ("Auto-translation error: " +:+ e) ;;
         try_except
           (await_send env (channel message)
              (Text ("⚠️ Auto-translation failed: " +:+ Py.take 100 e)))
           (fun _ => ret tt)))%coro h).
Proof.
  intros Hg. destruct (passes_gates_inv message Hg) as (H1 & H2 & H3).
  unfold on_message. rewrite H1, H2, H3.
  cbn [negb]. unfold bind at 1. unfold log at 1. cbn [level_enabled].
  rewrite app_nil_r.
  match goal with |- (let '(_, _) := ?x in _) = _ => destruct x end.
  reflexivity.
Qed.

(** C10. A message whose text starts with the command prefix is left
    alone: [on_message] returns without any event, hence without
    detection, translation or publication, whoever wrote it and
    whatever its channel and language. *)
Theorem on_message_ignores_commands message h :
  Py.startswith (content message) (command_prefix config) = true ->
  on_message env config message h = (Ok tt, []).
Proof.
  intros Hp. unfold on_message. rewrite Hp, orb_true_r. reflexivity.
Qed.

(** C8. A message written by a bot, or empty after trimming, or on a
    channel that is not watched, is left alone: [on_message] returns
    without any event.  Trimming is [str.strip] of the interpreter,
    whatever it takes for white space. *)
Theorem on_message_gated_out message h :
  author_bot message = true \/
  str_strip env (content message) = "" \/
  Py.mem (channel_id (channel message)) (auto_translate_channels config) = false ->
  on_message env config message h = (Ok tt, []).
Proof.
  intros Hgate. unfold on_message.
  destruct (author_bot message || Py.startswith _ _) eqn:Hfirst; [reflexivity|].
  destruct (String.eqb (str_strip env (content message)) "") eqn:Hempty; [reflexivity|].
  destruct Hgate as [Hbot | [Hstrip | Hwatch]].
  - rewrite Hbot in Hfirst. discriminate.
  - rewrite Hstrip in Hempty. discriminate.
  - rewrite Hwatch. reflexivity.
Qed.

Lemma on_message_not_gated_in message h :
  passes_gates env config message = false ->
  on_message env config message h = (Ok tt, []).
Proof.
  unfold passes_gates, on_message.
  destruct (author_bot message || Py.startswith _ _); [reflexivity|].
  destruct (String.eqb (str_strip env (content message)) ""); [reflexivity|].
  destruct (Py.mem _ _); [discriminate|reflexivity].
Qed.

(** C9. When the detector answers [en] for a message, [on_message]
    calls no provider and sends nothing; for a message that passed the
    gates it stops right after noting the detected language. *)
Theorem on_message_english_stops message h :
  single_detection env (h ++ [EvLog INFO (auto_translating_text message)])
    (content message) = Ok "en" ->
  translator_calls (snd (on_message env config message h)) = 0 /\
  send_attempts (snd (on_message env config message h)) = [] /\
  (passes_gates env config message = true ->
   on_message env config message h =
     (Ok tt,
      [ EvLog INFO (auto_translating_text message);
        EvDetect (content message) (Ok "en");
        EvLog INFO "Detected language: en";
        EvLog INFO "Message already in English, skipping translation" ])).
Proof.
  intros Hdet.
  destruct (passes_gates env config message) eqn:Hg.
  - assert (Hrun : on_message env config message h =
      (Ok tt,
       [ EvLog INFO (auto_translating_text message);
         EvDetect (content message) (Ok "en");
         EvLog INFO "Detected language: en";
         EvLog INFO "Message already in English, skipping translation" ])).
    { rewrite on_message_gated_in by exact Hg.
      unfold detect_language. unfold_coro. cbn -[auto_translating_text].
      rewrite Hdet. reflexivity. }
    rewrite Hrun. auto.
  - rewrite on_message_not_gated_in by exact Hg.
    repeat split; auto; discriminate.
Qed.

Lemma detect_language_cases message h0 d td :
  detect_language env message h0 = (Ok d, td) ->
  td = [ EvDetect (content message) (Ok d);
         EvLog INFO ("Detected language: " +:+ d) ] \/
  exists e,
    d = "auto" /\
    td = [ EvDetect (content message) (Raise e);
           EvLog WARNING ("Language detection failed: " +:+ e
                          +:+ ", proceeding with auto-detection") ].
Proof.
  unfold detect_language. unfold_coro.
  destruct (single_detection env h0 (content message)) as [d'|e];
    cbn; intros Heq; injection Heq as <- <-; eauto.
Qed.

(** C3, as the code has it.  Once the gates are passed, the detected
    language is not [en] and the provider has answered, the translation
    is published exactly when, after lower-casing and trimming both
    texts, the translation is not empty, the two strings differ, and
    their sequences of words differ too.  A translation with the same
    normalised string or the same words as the original is not sent,
    and then nothing at all is sent.  Lower case, trimming and the words
    of a text are those of the interpreter: [str.lower], [str.strip] and
    [re.findall], whatever they give. *)
Theorem publish_iff_significant message h d td translated :
  passes_gates env config message = true ->
  detect_language env message (h ++ [EvLog INFO (auto_translating_text message)])
    = (Ok d, td) ->
  d <> "en" ->
  google_translate env (h ++ [EvLog INFO (auto_translating_text message)] ++ td)
    "en" (content message) = Ok translated ->
  let t := snd (on_message env config message h) in
  let original_clean := str_strip env (str_lower env (content message)) in
  let translated_clean := str_strip env (str_lower env translated) in
  let significant :=
    translated_clean <> original_clean /\
    translated_clean <> "" /\
    re_findall_words env original_clean <> re_findall_words env translated_clean in
  (publications t <> [] <-> significant) /\
  (significant ->
     exists r,
       publications t =
       [EvSend (channel_id (channel message))
          (Embedded (translation_embed message d translated)) r]) /\
  (~ significant -> send_attempts t = []).
Proof.
  intros Hg Hdet Hd Htr. cbn zeta.
  remember (snd (on_message env config message h)) as t eqn:Ht.
  rewrite on_message_gated_in in Ht by exact Hg.
  apply String.eqb_neq in Hd.
  unfold bind at 1 in Ht. unfold log at 1 in Ht. cbn [level_enabled] in Ht.
  unfold try_except at 1 in Ht. unfold bind at 1 in Ht.
  rewrite Hdet, Hd in Ht.
  unfold bind at 1 in Ht. unfold await_translate at 1 in Ht. cbn zeta in Ht.
  rewrite <- app_assoc, Htr in Ht.
  unfold publish_if_different in Ht.
  remember (str_strip env (str_lower env (content message))) as oc eqn:Hoc.
  remember (str_strip env (str_lower env translated)) as tc eqn:Htc.
  remember (re_findall_words env oc) as ow eqn:How.
  remember (re_findall_words env tc) as tw eqn:Htw.
  clear Hoc Htc How Htw Htr Hd Hg.
  apply detect_language_cases in Hdet.
  assert (Htd : publications td = [] /\ send_attempts td = []).
  { destruct Hdet as [-> | (e & _ & ->)]; auto. }
  destruct Htd as [Hpub Hsend]. clear Hdet.
  unfold publications, send_attempts in *.
  destruct (String.eqb tc oc) eqn:E1;
    [apply String.eqb_eq in E1 | apply String.eqb_neq in E1];
  (destruct (0 <? String.length tc)%nat eqn:E2;
    [apply Nat.ltb_lt in E2 | apply Nat.ltb_ge in E2]);
  cbn [negb andb] in Ht;
  try destruct (list_eq_dec string_dec ow tw) as [E3|E3].
  all: unfold_coro; cbn -[translation_embed auto_translating_text Py.take] in Ht.
  all: try (destruct (channel_send env _ _ _) as [[]|e1] eqn:Hs1 in Ht;
            cbn -[translation_embed auto_translating_text Py.take] in Ht).
  all: try (destruct (channel_send env _ _ (Text _)) as [[]|e2] eqn:Hs2 in Ht;
            cbn -[translation_embed auto_translating_text Py.take] in Ht).
  all: subst t; cbn [filter is_publication is_send];
    rewrite ?filter_app, ?Hpub, ?Hsend; cbn [filter is_publication is_send app].
  all: assert (Hne : 0 < String.length tc <-> tc <> "")
    by (destruct tc; cbn; split; intros; try lia; congruence).
  all: repeat split; intros; try discriminate; try tauto; try congruence; eauto.
  all: try (exfalso; intuition (try congruence; try lia)).
Qed.

End ListenerFacts.

(** ** The listener on sample runs *)

Lemma on_message_ignores_commands_witness :
  let message := demo_message "!translate spanish Bonjour tout le monde" in
  Py.startswith (content message) (command_prefix demo_config) = true /\
  on_message calm_env demo_config message [] = (Ok tt, []).
Proof.
  cbn zeta. split; [reflexivity|].
  apply (on_message_ignores_commands calm_env demo_config). reflexivity.
Defined.

Lemma on_message_gated_out_witness :
  (author_bot unwatched_message = true \/
   str_strip calm_env (content unwatched_message) = "" \/
   Py.mem (channel_id (channel unwatched_message))
     (auto_translate_channels demo_config) = false) /\
  on_message calm_env demo_config unwatched_message [] = (Ok tt, []).
Proof.
  split; [right; right; reflexivity|].
  apply (on_message_gated_out calm_env demo_config). right; right; reflexivity.
Defined.

Lemma on_message_english_stops_witness :
  let message := demo_message "ok" in
  single_detection english_env ([] ++ [EvLog INFO (auto_translating_text message)])
    (content message) = Ok "en" /\
  (translator_calls (snd (on_message english_env demo_config message [])) = 0 /\
   send_attempts (snd (on_message english_env demo_config message [])) = [] /\
   (passes_gates english_env demo_config message = true ->
    on_message english_env demo_config message [] =
      (Ok tt,
       [ EvLog INFO (auto_translating_text message);
         EvDetect (content message) (Ok "en");
         EvLog INFO "Detected language: en";
         EvLog INFO "Message already in English, skipping translation" ]))).
Proof.
  cbn zeta. split; [reflexivity|].
  apply (on_message_english_stops english_env demo_config (demo_message "ok") []).
  reflexivity.
Defined.

Lemma publish_iff_significant_witness :
  let message := demo_message "Bonjour" in
  let env := fixed_env "Hello" in
  let td := [ EvDetect "Bonjour" (Ok "fr"); EvLog INFO "Detected language: fr" ] in
  let t := snd (on_message env demo_config message []) in
  let original_clean := str_strip env (str_lower env (content message)) in
  let translated_clean := str_strip env (str_lower env "Hello") in
  let significant :=
    translated_clean <> original_clean /\
    translated_clean <> "" /\
    re_findall_words env original_clean <> re_findall_words env translated_clean in
  passes_gates env demo_config message = true /\
  detect_language env message ([] ++ [EvLog INFO (auto_translating_text message)])
    = (Ok "fr", td) /\
  "fr" <> "en" /\
  google_translate env ([] ++ [EvLog INFO (auto_translating_text message)] ++ td)
    "en" (content message) = Ok "Hello" /\
  ((publications t <> [] <-> significant) /\
   (significant ->
      exists r,
        publications t =
        [EvSend (channel_id (channel message))
           (Embedded (translation_embed message "fr" "Hello")) r]) /\
   (~ significant -> send_attempts t = [])).
Proof.
  cbn zeta.
  assert (Hlang : "fr" <> "en") by discriminate.
  split; [reflexivity|]. split; [reflexivity|]. split; [exact Hlang|].
  split; [reflexivity|].
  exact (publish_iff_significant (fixed_env "Hello") demo_config (demo_message "Bonjour")
           [] "fr" [ EvDetect "Bonjour" (Ok "fr"); EvLog INFO "Detected language: fr" ]
           "Hello" eq_refl eq_refl Hlang eq_refl).
Defined.

(** C3 fails as stated.  The provider answers with an empty text for
    [hola]: the normalised strings differ and so do the word sequences
    (one word against none), yet nothing is published, because the code
    also asks for a translation that is not empty. *)
Lemma empty_translation_not_published :
  let message := demo_message "hola" in
  let env := fixed_env "" in
  let t := snd (on_message env demo_config message []) in
  let original_clean := str_strip env (str_lower env (content message)) in
  let translated_clean := str_strip env (str_lower env "") in
  passes_gates env demo_config message = true /\
  In (EvDetect "hola" (Ok "fr")) t /\
  In (EvTranslate "en" "hola" (Ok "")) t /\
  ~ (publications t <> [] <->
     translated_clean <> original_clean /\
     re_findall_words env original_clean <> re_findall_words env translated_clean).
Proof.
  cbn zeta. split; [reflexivity|]. split; [vm_compute; auto 10|].
  split; [vm_compute; auto 10|].
  intros [_ Hpublish].
  apply Hpublish; [split; discriminate | reflexivity].
Qed.

(** The two cases of the equivalence gate the specification names. *)
Example gate_case_and_whitespace_only :
  snd (on_message (fixed_env "hello   world") demo_config (demo_message "Hello World") [])
  = [ EvLog INFO "Auto-translating message from ana#1234 in news: Hello World";
      EvDetect "Hello World" (Ok "fr");
      EvLog INFO "Detected language: fr";
      EvTranslate "en" "Hello World" (Ok "hello   world");
      EvLog INFO "Translation result: hello   world";
      EvLog INFO "Translation too similar to original, skipping" ].
Proof. reflexivity. Qed.

Example gate_bonjour_is_published :
  publications (snd (on_message (fixed_env "Hello") demo_config (demo_message "Bonjour") []))
  = [ EvSend 500
        (Embedded {| embed_title := "🔄 Auto Translation";
                     embed_color := 15105570;
                     embed_fields := [ ("Original (fr)", "Bonjour", false);
                                       ("Translation (English)", "Hello", false) ];
                     embed_footer := "From Ana" |})
        (Ok tt) ].
Proof. reflexivity. Qed.

(** Words are cut at every character that is not a word character, so
    removing a space or an apostrophe changes them. *)
Example words_change_with_boundaries :
  Py.findall_words "don't stop" = ["don"; "t"; "stop"] /\
  Py.findall_words "dont stop" = ["dont"; "stop"] /\
  Py.findall_words "hello,   world!" = Py.findall_words "hello world".
Proof. repeat split; reflexivity. Qed.

(** So a translation that differs from the original by an apostrophe
    inside a word has other words, and is published. *)
Example gate_apostrophe_inside_word :
  publications (snd (on_message (fixed_env "dont stop") demo_config
                       (demo_message "don't stop") []))
  = [ EvSend 500
        (Embedded (translation_embed (demo_message "don't stop") "fr" "dont stop"))
        (Ok tt) ].
Proof. reflexivity. Qed.

(** The words of a text are those of the interpreter: a Japanese message
    and its Chinese translation have other words, and the translation is
    published. *)
Example gate_words_outside_ascii :
  re_findall_words (letters_env "ja" "中文") "日本語" = ["日本語"] /\
  publications (snd (on_message (letters_env "ja" "中文") demo_config
                       (demo_message "日本語") []))
  = [ EvSend 500
        (Embedded (translation_embed (demo_message "日本語") "ja" "中文"))
        (Ok tt) ].
Proof. split; reflexivity. Qed.

(** * More properties *)

From Stdlib Require DecimalPos DecimalZ.

(** ** Dicts and lists *)

Section DictFacts.
Context {V : Type}.
Implicit Types (d : list (string * V)) (k : string) (v : V).

Lemma dict_get_lookup d k default :
  Py.dict_get d k default =
  match Dict.lookup d k with Some v => v | None => default end.
Proof.
  induction d as [|[k' v'] d IH]; cbn; [reflexivity|].
  destruct (String.eqb k' k); auto.
Qed.

Lemma dict_has_lookup d k : Dict.has d k = true <-> Dict.lookup d k <> None.
Proof.
  induction d as [|[k' v'] d IH]; cbn.
  - split; [discriminate | congruence].
  - destruct (String.eqb k' k); cbn; [split; [discriminate | reflexivity] | exact IH].
Qed.

Lemma dict_has_false d k : Dict.has d k = false <-> Dict.lookup d k = None.
Proof.
  induction d as [|[k' v'] d IH]; cbn.
  - tauto.
  - destruct (String.eqb k' k); cbn; [split; discriminate | exact IH].
Qed.

Lemma dict_has_keys d k : Dict.has d k = true <-> In k (Dict.keys d).
Proof.
  induction d as [|[k' v'] d IH]; cbn.
  - split; [discriminate | tauto].
  - rewrite orb_true_iff, String.eqb_eq, IH. tauto.
Qed.

Lemma lookup_set_same d k v : Dict.lookup (Dict.set d k v) k = Some v.
Proof.
  induction d as [|[k' v'] d IH]; cbn.
  - now rewrite String.eqb_refl.
  - destruct (String.eqb k' k) eqn:E; cbn; [now rewrite String.eqb_refl|].
    now rewrite E.
Qed.

Lemma lookup_set_other d k k' v :
  k' <> k -> Dict.lookup (Dict.set d k v) k' = Dict.lookup d k'.
Proof.
  intros Hne. induction d as [|[k0 v0] d IH]; cbn.
  - apply String.eqb_neq in Hne. rewrite String.eqb_sym. now rewrite Hne.
  - destruct (String.eqb k0 k) eqn:E; cbn.
    + apply String.eqb_eq in E. subst k0.
      apply not_eq_sym, String.eqb_neq in Hne. now rewrite Hne.
    + destruct (String.eqb k0 k'); auto.
Qed.

Lemma keys_set_present d k v :
  Dict.has d k = true -> Dict.keys (Dict.set d k v) = Dict.keys d.
Proof.
  induction d as [|[k' v'] d IH]; cbn; [discriminate|].
  destruct (String.eqb k' k) eqn:E; cbn.
  - apply String.eqb_eq in E. now subst.
  - intros H. f_equal. now apply IH.
Qed.

Lemma keys_set_absent d k v :
  Dict.has d k = false -> Dict.keys (Dict.set d k v) = Dict.keys d ++ [k].
Proof.
  induction d as [|[k' v'] d IH]; cbn; [reflexivity|].
  destruct (String.eqb k' k) eqn:E; cbn; [discriminate|].
  intros H. f_equal. now apply IH.
Qed.

Lemma keys_set_nodup d k v : NoDup (Dict.keys d) -> NoDup (Dict.keys (Dict.set d k v)).
Proof.
  intros Hnd. destruct (Dict.has d k) eqn:E.
  - now rewrite keys_set_present.
  - rewrite keys_set_absent by exact E.
    apply NoDup_app; [exact Hnd | repeat constructor; auto |].
    intros x Hx [<-|[]]. apply dict_has_keys in Hx. congruence.
Qed.

Lemma lookup_del_same d k : Dict.lookup (Dict.del d k) k = None.
Proof.
  induction d as [|[k' v'] d IH]; cbn; [reflexivity|].
  destruct (String.eqb k' k) eqn:E; cbn; [exact IH|]. now rewrite E.
Qed.

Lemma lookup_del_other d k k' :
  k' <> k -> Dict.lookup (Dict.del d k) k' = Dict.lookup d k'.
Proof.
  intros Hne. induction d as [|[k0 v0] d IH]; cbn; [reflexivity|].
  destruct (String.eqb k0 k) eqn:E; cbn.
  - apply String.eqb_eq in E. subst k0.
    apply not_eq_sym, String.eqb_neq in Hne. now rewrite Hne.
  - destruct (String.eqb k0 k'); auto.
Qed.

Lemma keys_del_incl d k x : In x (Dict.keys (Dict.del d k)) -> In x (Dict.keys d).
Proof.
  induction d as [|[k' v'] d IH]; cbn; [tauto|].
  destruct (String.eqb k' k); cbn; tauto.
Qed.

Lemma keys_del_nodup d k : NoDup (Dict.keys d) -> NoDup (Dict.keys (Dict.del d k)).
Proof.
  induction d as [|[k' v'] d IH]; cbn; [auto|].
  intros Hnd. inversion Hnd as [|? ? Hnotin Hnd']; subst.
  destruct (String.eqb k' k); cbn; [auto|].
  constructor; [|auto]. intros Hin. apply Hnotin. eapply keys_del_incl; eauto.
Qed.

End DictFacts.

(** [str] gives different guilds different keys. *)
Lemma str_of_Z_inj z1 z2 : Py.str_of_Z z1 = Py.str_of_Z z2 -> z1 = z2.
Proof.
  unfold Py.str_of_Z. intros Heq.
  assert (Hparse : forall z,
             NilZero.int_of_string (NilZero.string_of_int (Z.to_int z))
             = Some (Z.to_int z)).
  { intros z. apply NilZero.isi; destruct z; cbn; try discriminate;
      intros [= H]; revert H; apply DecimalPos.Unsigned.to_uint_nonnil. }
  apply DecimalZ.to_int_inj.
  assert (H := Hparse z1). rewrite Heq, Hparse in H. congruence.
Qed.

Lemma mem_spec x l : Py.mem x l = true <-> In x l.
Proof.
  unfold Py.mem. rewrite existsb_exists. split.
  - intros (y & Hin & Heq). apply Z.eqb_eq in Heq. now subst.
  - intros Hin. exists x. split; [exact Hin | apply Z.eqb_refl].
Qed.

Lemma mem_app x l1 l2 : Py.mem x (l1 ++ l2) = Py.mem x l1 || Py.mem x l2.
Proof. unfold Py.mem. apply existsb_app. Qed.

Lemma list_remove_other x y l : y <> x -> Py.mem y (list_remove x l) = Py.mem y l.
Proof.
  intros Hne. unfold Py.mem. induction l as [|z l IH]; cbn; [reflexivity|].
  destruct (Z.eqb x z) eqn:E.
  - apply Z.eqb_eq in E. subst z.
    apply Z.eqb_neq in Hne. now rewrite Hne.
  - cbn. now rewrite IH.
Qed.

Lemma mem_cons x y l : Py.mem x (y :: l) = Z.eqb x y || Py.mem x l.
Proof. reflexivity. Qed.

Lemma list_remove_nodup x l :
  NoDup l -> NoDup (list_remove x l) /\ Py.mem x (list_remove x l) = false.
Proof.
  induction l as [|z l IH]; cbn [list_remove]; intros Hnd;
    [split; [constructor | reflexivity]|].
  inversion Hnd as [|? ? Hnotin Hnd']; subst.
  destruct (Z.eqb x z) eqn:E.
  - apply Z.eqb_eq in E. subst z. split; [exact Hnd'|].
    destruct (Py.mem x l) eqn:Hm; [|reflexivity]. apply mem_spec in Hm. contradiction.
  - destruct (IH Hnd') as [IH1 IH2]. split.
    + constructor; [|exact IH1]. intros Hin. apply Hnotin.
      apply mem_spec. rewrite <- (list_remove_other x z l).
      * now apply mem_spec.
      * intros ->. now rewrite Z.eqb_refl in E.
    + now rewrite mem_cons, E, IH2.
Qed.

Lemma mem_count x l : Py.mem x l = negb (count_occ Z.eq_dec l x =? 0)%nat.
Proof.
  induction l as [|z l IH]; [reflexivity|].
  rewrite mem_cons, IH. cbn [count_occ].
  destruct (Z.eq_dec z x) as [->|Hne].
  - now rewrite Z.eqb_refl.
  - apply not_eq_sym, Z.eqb_neq in Hne. now rewrite Hne.
Qed.

(** [l.remove(x)] takes one [x] away. *)
Lemma count_list_remove x l :
  count_occ Z.eq_dec (list_remove x l) x = pred (count_occ Z.eq_dec l x).
Proof.
  induction l as [|z l IH]; [reflexivity|].
  cbn [list_remove count_occ].
  destruct (Z.eqb x z) eqn:E.
  - apply Z.eqb_eq in E. subst z. destruct (Z.eq_dec x x); [reflexivity | congruence].
  - cbn [count_occ]. destruct (Z.eq_dec z x) as [->|Hne]; [|exact IH].
    now rewrite Z.eqb_refl in E.
Qed.

(** ** config.py: the language channels *)

Section DictMore.
Context {V : Type}.
Implicit Types (d : list (string * V)) (k : string) (v : V).

Lemma dict_get_set_same d k v default : Py.dict_get (Dict.set d k v) k default = v.
Proof. now rewrite dict_get_lookup, lookup_set_same. Qed.

Lemma dict_get_set_other d k k' v default :
  k' <> k -> Py.dict_get (Dict.set d k v) k' default = Py.dict_get d k' default.
Proof. intros H. now rewrite !dict_get_lookup, lookup_set_other. Qed.

Lemma dict_get_absent d k default : Dict.has d k = false -> Py.dict_get d k default = default.
Proof. intros H. apply dict_has_false in H. now rewrite dict_get_lookup, H. Qed.

Lemma dict_set_set d k v v' : Dict.set (Dict.set d k v) k v' = Dict.set d k v'.
Proof.
  induction d as [|[k0 v0] d IH]; cbn.
  - now rewrite String.eqb_refl.
  - destruct (String.eqb k0 k) eqn:E; cbn.
    + now rewrite String.eqb_refl.
    + now rewrite E, IH.
Qed.

End DictMore.

Ltac unfold_cmd :=
  unfold cbind, cret, ctry, modify, perform, save_config in *.

Section ConfigFacts.
Variable disk : Storage.

Lemma set_announcement_language_channel_run g l ch c h :
  let key := Py.str_of_Z g in
  let d := announcement_language_channels c in
  let c' := with_announcement_language_channels c
              (Dict.set d key (Dict.set (Py.dict_get d key []) l ch)) in
  set_announcement_language_channel disk g l ch c h = (Ok tt, c', save_trace disk c' h).
Proof.
  cbn zeta. unfold set_announcement_language_channel, save_trace. unfold_cmd.
  destruct (Dict.has (announcement_language_channels c) (Py.str_of_Z g)) eqn:Hhas;
    cbn [negb announcement_language_channels with_announcement_language_channels app].
  - rewrite !app_nil_r. destruct (write_config disk h _); reflexivity.
  - rewrite dict_get_set_same, dict_set_set, (dict_get_absent _ _ _ Hhas).
    rewrite !app_nil_r. destruct (write_config disk h _); reflexivity.
Qed.


Lemma get_all_guild_key c g :
  get_all_announcement_language_channels c g =
  Py.dict_get (announcement_language_channels c) (Py.str_of_Z g) [].
Proof. reflexivity. Qed.

(** X1. Setting the channel of a language: afterwards the language has that
    channel; the other languages of the guild, the other guilds and the
    rest of the configuration are as before.  The call returns and the
    change stands whether or not the file could be written. *)
Theorem language_channel_set_then_get g l ch c h :
  let '(r, c', _) := set_announcement_language_channel disk g l ch c h in
  r = Ok tt /\
  get_announcement_language_channel c' g l = Some ch /\
  (forall l', l' <> l ->
     get_announcement_language_channel c' g l' = get_announcement_language_channel c g l') /\
  (forall g', g' <> g ->
     get_all_announcement_language_channels c' g' =
     get_all_announcement_language_channels c g') /\
  auto_translate_channels c' = auto_translate_channels c /\
  available_announcement_languages c' = available_announcement_languages c /\
  command_prefix c' = command_prefix c.
Proof.
  rewrite set_announcement_language_channel_run.
  unfold get_announcement_language_channel, get_all_announcement_language_channels.
  cbn [announcement_language_channels with_announcement_language_channels
       auto_translate_channels available_announcement_languages command_prefix].
  repeat split.
  - now rewrite dict_get_set_same, lookup_set_same.
  - intros l' Hl. now rewrite dict_get_set_same, lookup_set_other.
  - intros g' Hg. apply dict_get_set_other.
    intros Heq. apply Hg. now apply str_of_Z_inj.
Qed.

Lemma dict_set_absent {V} (d : list (string * V)) k v :
  Dict.has d k = false -> Dict.set d k v = d ++ [(k, v)].
Proof.
  induction d as [|[k' v'] d IH]; cbn; [reflexivity|].
  destruct (String.eqb k' k); cbn; [discriminate|].
  intros H. f_equal. now apply IH.
Qed.

(** X2. The order of the fan-out is the order of configuration: a language
    that had a channel keeps its place when it is given another one, a
    new language goes last, and no language is listed twice. *)
Theorem language_channel_set_keeps_order g l ch c h :
  let '(_, c', _) := set_announcement_language_channel disk g l ch c h in
  let before := get_all_announcement_language_channels c g in
  let after := get_all_announcement_language_channels c' g in
  (Dict.has before l = true -> Dict.keys after = Dict.keys before) /\
  (Dict.has before l = false -> after = before ++ [(l, ch)]) /\
  (NoDup (Dict.keys before) -> NoDup (Dict.keys after)).
Proof.
  rewrite set_announcement_language_channel_run.
  unfold get_all_announcement_language_channels.
  cbn [announcement_language_channels with_announcement_language_channels].
  rewrite dict_get_set_same.
  repeat split.
  - apply keys_set_present.
  - apply dict_set_absent.
  - apply keys_set_nodup.
Qed.

Lemma remove_announcement_language_channel_run g l c h :
  let key := Py.str_of_Z g in
  let d := announcement_language_channels c in
  remove_announcement_language_channel disk g l c h =
  if Dict.has (Py.dict_get d key []) l
  then
    let c' := with_announcement_language_channels c
                (Dict.set d key (Dict.del (Py.dict_get d key []) l)) in
    (Ok tt, c', save_trace disk c' h)
  else (Ok tt, c, []).
Proof.
  cbn zeta. unfold remove_announcement_language_channel, save_trace. unfold_cmd.
  destruct (Dict.has (announcement_language_channels c) (Py.str_of_Z g)) eqn:Hhas.
  - destruct (Dict.has (Py.dict_get _ _ _) l); [|reflexivity].
    cbn [announcement_language_channels with_announcement_language_channels app].
    rewrite !app_nil_r. destruct (write_config disk h _); reflexivity.
  - now rewrite (dict_get_absent _ _ _ Hhas).
Qed.

(** X3. Removing the channel of a language: afterwards the language has no
    channel in the guild; everything else is as before; and when it had
    none, nothing changes and nothing is written. *)
Theorem language_channel_remove g l c h :
  let '(r, c', t) := remove_announcement_language_channel disk g l c h in
  r = Ok tt /\
  get_announcement_language_channel c' g l = None /\
  (forall l', l' <> l ->
     get_announcement_language_channel c' g l' = get_announcement_language_channel c g l') /\
  (forall g', g' <> g ->
     get_all_announcement_language_channels c' g' =
     get_all_announcement_language_channels c g') /\
  (get_announcement_language_channel c g l = None -> c' = c /\ t = []).
Proof.
  rewrite remove_announcement_language_channel_run. cbn zeta.
  unfold get_announcement_language_channel, get_all_announcement_language_channels.
  destruct (Dict.has (Py.dict_get _ _ _) l) eqn:Hhas;
    cbn [announcement_language_channels with_announcement_language_channels].
  - repeat split.
    + now rewrite dict_get_set_same, lookup_del_same.
    + intros l' Hl. now rewrite dict_get_set_same, lookup_del_other.
    + intros g' Hg. apply dict_get_set_other.
      intros Heq. apply Hg. now apply str_of_Z_inj.
    + apply dict_has_lookup in Hhas. contradiction.
    + apply dict_has_lookup in Hhas. contradiction.
  - apply dict_has_false in Hhas. repeat split; auto.
Qed.

Lemma forget_language_get l d key :
  Py.dict_get (forget_language l d) key [] =
  let channels := Py.dict_get d key [] in
  if Dict.has channels l then Dict.del channels l else channels.
Proof.
  induction d as [|[k chans] d IH]; cbn; [reflexivity|].
  destruct (String.eqb k key); [reflexivity | exact IH].
Qed.

(** X4. Removing a language that is available removes it from the available
    languages and takes its channel away in every guild; the channels of
    the other languages stay.  A language that is not available is left
    alone, with whatever channels it has. *)
Theorem language_removed_everywhere l c h :
  let '(r, c', t) := remove_announcement_language disk l c h in
  r = Ok tt /\
  (Dict.has (available_announcement_languages c) l = true ->
     Dict.has (available_announcement_languages c') l = false /\
     forall g, get_announcement_language_channel c' g l = None) /\
  (forall g l', l' <> l ->
     get_announcement_language_channel c' g l' = get_announcement_language_channel c g l') /\
  (Dict.has (available_announcement_languages c) l = false -> c' = c /\ t = []).
Proof.
  unfold remove_announcement_language. unfold_cmd.
  destruct (Dict.has (available_announcement_languages c) l) eqn:Hhas.
  - cbn [available_announcement_languages with_available_announcement_languages
         announcement_language_channels with_announcement_language_channels app].
    rewrite !app_nil_r.
    assert (Hgone : forall g,
      Dict.lookup (Py.dict_get (forget_language l (announcement_language_channels c))
                     (Py.str_of_Z g) []) l = None).
    { intros g. rewrite forget_language_get. cbn zeta.
      destruct (Dict.has (Py.dict_get _ _ _) l) eqn:E;
        [apply lookup_del_same | now apply dict_has_false]. }
    assert (Hkept : forall g l', l' <> l ->
      Dict.lookup (Py.dict_get (forget_language l (announcement_language_channels c))
                     (Py.str_of_Z g) []) l' =
      Dict.lookup (Py.dict_get (announcement_language_channels c) (Py.str_of_Z g) []) l').
    { intros g l' Hl. rewrite forget_language_get. cbn zeta.
      destruct (Dict.has (Py.dict_get _ _ _) l) eqn:E;
        [now apply lookup_del_other | reflexivity]. }
    destruct (write_config disk h _); cbn;
      unfold get_announcement_language_channel;
      cbn [announcement_language_channels];
      (repeat split; try discriminate; auto;
       apply dict_has_false, lookup_del_same).
  - repeat split; auto; discriminate.
Qed.

End ConfigFacts.

(** ** The watched channels *)

Section WatchFacts.
Variable disk : Storage.

Lemma add_auto_translate_channel_run id c h :
  add_auto_translate_channel disk id c h =
  if Py.mem id (auto_translate_channels c) then (Ok tt, c, [])
  else
    let c' := with_auto_translate_channels c (auto_translate_channels c ++ [id]) in
    (Ok tt, c', save_trace disk c' h).
Proof.
  unfold add_auto_translate_channel, save_trace. unfold_cmd.
  destruct (Py.mem id (auto_translate_channels c)); cbn [negb]; [reflexivity|].
  cbn zeta. rewrite !app_nil_r. destruct (write_config disk h _); reflexivity.
Qed.

Lemma remove_auto_translate_channel_run id c h :
  remove_auto_translate_channel disk id c h =
  if Py.mem id (auto_translate_channels c)
  then
    let c' := with_auto_translate_channels c
                (list_remove id (auto_translate_channels c)) in
    (Ok tt, c', save_trace disk c' h)
  else (Ok tt, c, []).
Proof.
  unfold remove_auto_translate_channel, save_trace. unfold_cmd.
  destruct (Py.mem id (auto_translate_channels c)); [|reflexivity].
  cbn zeta. rewrite !app_nil_r. destruct (write_config disk h _); reflexivity.
Qed.

(** X5. Adding a watched channel: afterwards it is watched, the other
    channels are watched as before, and the list gains no duplicate.  A
    channel that is watched already changes nothing and writes nothing. *)
Theorem watched_channel_added id c h :
  let '(r, c', t) := add_auto_translate_channel disk id c h in
  r = Ok tt /\
  Py.mem id (auto_translate_channels c') = true /\
  (forall x, x <> id ->
     Py.mem x (auto_translate_channels c') = Py.mem x (auto_translate_channels c)) /\
  (NoDup (auto_translate_channels c) -> NoDup (auto_translate_channels c')) /\
  (Py.mem id (auto_translate_channels c) = true -> c' = c /\ t = []).
Proof.
  rewrite add_auto_translate_channel_run.
  destruct (Py.mem id (auto_translate_channels c)) eqn:Hmem.
  - repeat split; auto.
  - cbn zeta. cbn [auto_translate_channels with_auto_translate_channels].
    repeat split; try discriminate.
    + rewrite mem_app, Hmem. cbn. now rewrite Z.eqb_refl.
    + intros x Hx. rewrite mem_app. cbn. apply Z.eqb_neq in Hx.
      now rewrite Hx, !orb_false_r.
    + intros Hnd. apply NoDup_app; [exact Hnd | repeat constructor; auto |].
      intros x Hx [<-|[]]. apply mem_spec in Hx. congruence.
Qed.

(** X6. Removing a watched channel from a list without duplicates: afterwards
    it is not watched, and the other channels are watched as before. *)
Theorem watched_channel_removed id c h :
  NoDup (auto_translate_channels c) ->
  let '(r, c', _) := remove_auto_translate_channel disk id c h in
  r = Ok tt /\
  Py.mem id (auto_translate_channels c') = false /\
  (forall x, x <> id ->
     Py.mem x (auto_translate_channels c') = Py.mem x (auto_translate_channels c)) /\
  NoDup (auto_translate_channels c').
Proof.
  intros Hnd. rewrite remove_auto_translate_channel_run.
  destruct (Py.mem id (auto_translate_channels c)) eqn:Hmem.
  - cbn zeta. cbn [auto_translate_channels with_auto_translate_channels].
    destruct (list_remove_nodup id _ Hnd) as [Hnd' Hgone].
    repeat split; auto. intros x Hx. now apply list_remove_other.
  - repeat split; auto.
Qed.

End WatchFacts.

Section ToggleFacts.
Variable env : Env.
Variable disk : Storage.

Lemma toggle_auto_translate_config inv chosen c h :
  let target := match chosen with Some ch => ch | None => inv_channel inv end in
  let id := channel_id target in
  snd (fst (toggle_auto_translate env disk inv chosen c h)) =
  if Py.mem id (auto_translate_channels c)
  then with_auto_translate_channels c (list_remove id (auto_translate_channels c))
  else with_auto_translate_channels c (auto_translate_channels c ++ [id]).
Proof.
  cbn zeta. unfold toggle_auto_translate, ctry.
  destruct (Py.mem _ (auto_translate_channels c)) eqn:Hmem;
    unfold cbind, say, note, perform;
    rewrite ?add_auto_translate_channel_run, ?remove_auto_translate_channel_run, Hmem;
    cbn zeta; unfold await_ctx_send, log; cbn;
    repeat (break_match; cbn); tidy; reflexivity.
Qed.

Lemma toggle_auto_translate_result inv chosen c h :
  let '(r, _, t) := toggle_auto_translate env disk inv chosen c h in
  r = Ok tt \/
  exists e t0,
    r = Raise e /\
    t = t0 ++ [EvCtxSend "❌ Failed to toggle auto-translation." (Raise e)].
Proof.
  unfold toggle_auto_translate, ctry.
  destruct (Py.mem _ (auto_translate_channels c)) eqn:Hmem;
    unfold cbind, say, note, perform;
    rewrite ?add_auto_translate_channel_run, ?remove_auto_translate_channel_run, Hmem;
    cbn zeta; unfold await_ctx_send, log; cbn;
    repeat (break_match; cbn); tidy; auto.
  all: match goal with
       | |- ?r = Ok tt \/ _ => destruct r as [[]|e0]
       end; [left; reflexivity | right].
  all: eexists e0, (_ ++ [_]); split; [reflexivity|];
    rewrite <- (app_assoc _ [_] [_]); reflexivity.
Qed.


Lemma toggle_auto_translate_flips inv chosen c h :
  let target := match chosen with Some ch => ch | None => inv_channel inv end in
  let id := channel_id target in
  let c' := snd (fst (toggle_auto_translate env disk inv chosen c h)) in
  let n := count_occ Z.eq_dec (auto_translate_channels c) id in
  count_occ Z.eq_dec (auto_translate_channels c') id
    = (if (n =? 0)%nat then 1 else pred n) /\
  (forall x, x <> id ->
     Py.mem x (auto_translate_channels c') = Py.mem x (auto_translate_channels c)) /\
  (NoDup (auto_translate_channels c) -> NoDup (auto_translate_channels c')) /\
  command_prefix c' = command_prefix c.
Proof.
  cbn zeta. rewrite toggle_auto_translate_config. cbn zeta.
  set (id := channel_id match chosen with Some ch => ch | None => inv_channel inv end).
  rewrite (mem_count id (auto_translate_channels c)).
  destruct (count_occ Z.eq_dec (auto_translate_channels c) id =? 0)%nat eqn:Hn;
    cbn [auto_translate_channels with_auto_translate_channels command_prefix negb].
  - apply Nat.eqb_eq in Hn. repeat split.
    + rewrite count_occ_app, Hn. cbn. destruct (Z.eq_dec id id); [reflexivity | congruence].
    + intros x Hx. rewrite mem_app. cbn. apply Z.eqb_neq in Hx.
      now rewrite Hx, !orb_false_r.
    + intros Hnd. apply NoDup_app; [exact Hnd | repeat constructor; auto |].
      intros x Hx [<-|[]]. apply (count_occ_not_In Z.eq_dec) in Hn. contradiction.
  - repeat split.
    + apply count_list_remove.
    + intros x Hx. now apply list_remove_other.
    + intros Hnd. now apply list_remove_nodup.
Qed.

(** X7. Toggling takes the first entry of a watched channel off the list and
    puts an unwatched channel last; no other channel and nothing else of
    the configuration is touched, whatever the replies and the write do.
    Afterwards the channel is watched unless it was listed exactly once:
    on a list without duplicates the toggle flips whether the channel is
    watched and leaves the list without duplicates.  Only a failure
    reply that cannot be sent lets an exception out. *)
Theorem toggle_flips_watch inv chosen c h :
  let target := match chosen with Some ch => ch | None => inv_channel inv end in
  let id := channel_id target in
  let watched := auto_translate_channels c in
  let '(r, c', t) := toggle_auto_translate env disk inv chosen c h in
  auto_translate_channels c' =
    (if Py.mem id watched then list_remove id watched else watched ++ [id]) /\
  Py.mem id (auto_translate_channels c')
    = negb (count_occ Z.eq_dec watched id =? 1)%nat /\
  (forall x, x <> id -> Py.mem x (auto_translate_channels c') = Py.mem x watched) /\
  (NoDup watched ->
     Py.mem id (auto_translate_channels c') = negb (Py.mem id watched) /\
     NoDup (auto_translate_channels c')) /\
  command_prefix c' = command_prefix c /\
  (r = Ok tt \/
   exists e t0,
     r = Raise e /\
     t = t0 ++ [EvCtxSend "❌ Failed to toggle auto-translation." (Raise e)]).
Proof.
  cbn zeta.
  assert (Hlist := toggle_auto_translate_config inv chosen c h).
  assert (Hflip := toggle_auto_translate_flips inv chosen c h).
  assert (Hr := toggle_auto_translate_result inv chosen c h).
  destruct (toggle_auto_translate env disk inv chosen c h) as [[r c'] t].
  cbn [fst snd] in Hflip, Hlist. cbn zeta in Hflip, Hlist.
  destruct Hflip as (Hcount & Hother & Hnd & Hprefix).
  set (id := channel_id match chosen with Some ch => ch | None => inv_channel inv end) in *.
  assert (Hmem : Py.mem id (auto_translate_channels c')
                 = negb (count_occ Z.eq_dec (auto_translate_channels c) id =? 1)%nat).
  { rewrite mem_count, Hcount.
    destruct (count_occ Z.eq_dec (auto_translate_channels c) id) as [|[|n]]; reflexivity. }
  split; [|split; [exact Hmem|split; [exact Hother|split; [|split; [exact Hprefix|exact Hr]]]]].
  - rewrite Hlist. now destruct (Py.mem id (auto_translate_channels c)).
  - intros Hdup. split; [|now apply Hnd].
    rewrite Hmem, mem_count.
    assert (Hle := proj1 (NoDup_count_occ Z.eq_dec (auto_translate_channels c)) Hdup id).
    destruct (count_occ Z.eq_dec (auto_translate_channels c) id) as [|[|n]];
      [reflexivity | reflexivity | lia].
Qed.

End ToggleFacts.

(** X8. When the channel is listed at most once in the watch list, as it is
    in every list without duplicates, toggling it twice leaves every
    channel watched or not as it was, whatever happened to the replies
    and the writes in between. *)
Theorem toggle_twice_restores env1 env2 disk1 disk2 inv1 inv2 chosen c h1 h2 :
  let target := match chosen with Some ch => ch | None => inv_channel inv1 end in
  (count_occ Z.eq_dec (auto_translate_channels c) (channel_id target) <= 1)%nat ->
  inv_channel inv1 = inv_channel inv2 ->
  let '(_, c1, _) := toggle_auto_translate env1 disk1 inv1 chosen c h1 in
  let '(_, c2, _) := toggle_auto_translate env2 disk2 inv2 chosen c1 h2 in
  forall x, Py.mem x (auto_translate_channels c2) = Py.mem x (auto_translate_channels c).
Proof.
  cbn zeta. intros Hle Hinv.
  assert (H1 := toggle_auto_translate_flips env1 disk1 inv1 chosen c h1).
  destruct (toggle_auto_translate env1 disk1 inv1 chosen c h1) as [[r1 c1] t1].
  cbn [fst snd] in H1. cbn zeta in H1. destruct H1 as (Hflip1 & Hother1 & _).
  assert (H2 := toggle_auto_translate_flips env2 disk2 inv2 chosen c1 h2).
  destruct (toggle_auto_translate env2 disk2 inv2 chosen c1 h2) as [[r2 c2] t2].
  cbn [fst snd] in H2. cbn zeta in H2. destruct H2 as (Hflip2 & Hother2 & _).
  rewrite <- Hinv in *.
  set (id := channel_id match chosen with Some ch => ch | None => inv_channel inv1 end) in *.
  intros x.
  destruct (Z.eq_dec x id) as [->|Hne].
  - rewrite !mem_count, Hflip2, Hflip1.
    destruct (count_occ Z.eq_dec (auto_translate_channels c) id) as [|[|n]];
      [reflexivity | reflexivity | lia].
  - now rewrite Hother2, Hother1.
Qed.

(** X9. After a channel that is listed once in the watch list is toggled,
    [on_message] leaves every message of that channel alone. *)
Theorem toggled_off_channel_is_ignored env disk inv chosen c h env' message h' :
  let target := match chosen with Some ch => ch | None => inv_channel inv end in
  count_occ Z.eq_dec (auto_translate_channels c) (channel_id target) = 1 ->
  channel_id (channel message) = channel_id target ->
  let '(_, c', _) := toggle_auto_translate env disk inv chosen c h in
  on_message env' c' message h' = (Ok tt, []).
Proof.
  cbn zeta. intros Hone Hch.
  assert (H1 := toggle_auto_translate_flips env disk inv chosen c h).
  destruct (toggle_auto_translate env disk inv chosen c h) as [[r1 c1] t1].
  cbn [fst snd] in H1. cbn zeta in H1. destruct H1 as (Hflip & _).
  apply on_message_not_gated_in. unfold passes_gates.
  rewrite Hch, mem_count, Hflip, Hone. cbn. apply andb_false_r.
Qed.

(** X10. After a channel that was not watched is toggled, a message on it
    that is not from a bot, not a command and not blank passes the
    checks of [on_message], and the detector is asked about its text. *)
Theorem toggled_on_channel_is_translated env disk inv chosen c h env' message h' :
  let target := match chosen with Some ch => ch | None => inv_channel inv end in
  Py.mem (channel_id target) (auto_translate_channels c) = false ->
  channel_id (channel message) = channel_id target ->
  author_bot message = false ->
  Py.startswith (content message) (command_prefix c) = false ->
  str_strip env' (content message) <> "" ->
  let '(_, c', _) := toggle_auto_translate env disk inv chosen c h in
  passes_gates env' c' message = true /\
  exists r, In (EvDetect (content message) r) (snd (on_message env' c' message h')).
Proof.
  cbn zeta. intros Hmem Hch Hbot Hprefix Hblank.
  assert (H1 := toggle_auto_translate_flips env disk inv chosen c h).
  destruct (toggle_auto_translate env disk inv chosen c h) as [[r1 c1] t1].
  cbn [fst snd] in H1. cbn zeta in H1. destruct H1 as (Hflip & _ & _ & Hsame).
  rewrite mem_count in Hmem. apply negb_false_iff in Hmem. rewrite Hmem in Hflip.
  assert (Hg : passes_gates env' c1 message = true).
  { unfold passes_gates. rewrite Hch, mem_count, Hflip, Hsame, Hbot, Hprefix.
    apply String.eqb_neq in Hblank. now rewrite Hblank. }
  split; [exact Hg|].
  rewrite on_message_gated_in by exact Hg.
  unfold detect_language. unfold_coro. cbn -[auto_translating_text].
  destruct (single_detection env' _ (content message)) as [d|e];
    eexists; repeat (break_match; cbn -[auto_translating_text]);
    right; left; reflexivity.
Qed.

(** ** The listener *)

Section ListenerMore.
Variable env : Env.
Variable config : BotConfig.

Ltac run_listener :=
  unfold detect_language, publish_if_different; unfold_coro;
  cbn -[auto_translating_text translation_embed Py.take String.eqb Nat.ltb
        list_eq_dec];
  repeat (break_match;
          cbn -[auto_translating_text translation_embed Py.take String.eqb
                Nat.ltb list_eq_dec]).

(** X11. [on_message] never raises: what detection, translation or sending
    raise ends in the log and, when it can be sent, in a notice. *)
Theorem on_message_never_raises message h :
  fst (on_message env config message h) = Ok tt.
Proof.
  destruct (passes_gates env config message) eqn:Hg.
  - rewrite on_message_gated_in by exact Hg.
    run_listener; tidy; reflexivity.
  - now rewrite on_message_not_gated_in.
Qed.

(** X12. [on_message] writes to no channel but the one the message came
    from, at most twice (a translation that could not be sent, then the
    notice); it asks the detector and the provider at most once each and
    publishes at most one translation. *)
Theorem on_message_stays_in_channel message h :
  let t := snd (on_message env config message h) in
  (forall c p r, In (EvSend c p r) t -> c = channel_id (channel message)) /\
  length (send_attempts t) <= 2 /\
  length (publications t) <= 1 /\
  translator_calls t <= 1 /\
  length (filter (fun e => match e with EvDetect _ _ => true | _ => false end) t) <= 1 /\
  (forall c r, ~ In (EvTyping c r) t) /\
  (forall s r, ~ In (EvCtxSend s r) t).
Proof.
  cbn zeta.
  destruct (passes_gates env config message) eqn:Hg.
  - rewrite on_message_gated_in by exact Hg.
    unfold send_attempts, publications, translator_calls.
    run_listener; tidy.
    all: repeat split; try (cbn; lia).
    all: cbn; intros; intuition (try discriminate; try congruence).
  - rewrite on_message_not_gated_in by exact Hg. cbn.
    repeat split; auto; lia.
Qed.


(** X13. When detection raises, [on_message] goes on: the failure is logged as
    a warning, the provider is still asked, and a translation that gets
    published shows the language as Unknown. *)
Theorem detection_failure_is_unknown message h e :
  passes_gates env config message = true ->
  single_detection env (h ++ [EvLog INFO (auto_translating_text message)])
    (content message) = Raise e ->
  let t := snd (on_message env config message h) in
  In (EvLog WARNING ("Language detection failed: " +:+ e
                     +:+ ", proceeding with auto-detection")) t /\
  (exists r, In (EvTranslate "en" (content message) r) t) /\
  (forall c emb r,
     In (EvSend c (Embedded emb) r) t ->
     exists translated,
       emb = translation_embed message "auto" translated /\
       map (fun f => fst (fst f)) (embed_fields emb)
       = ["Original (Unknown)"; "Translation (English)"]).
Proof.
  intros Hg Hdet. cbn zeta.
  rewrite on_message_gated_in by exact Hg.
  unfold detect_language, publish_if_different. unfold_coro.
  cbn -[auto_translating_text translation_embed Py.take String.eqb Nat.ltb
        list_eq_dec].
  rewrite Hdet.
  cbn -[auto_translating_text translation_embed Py.take Nat.ltb list_eq_dec].
  repeat (break_match;
          cbn -[auto_translating_text translation_embed Py.take String.eqb
                Nat.ltb list_eq_dec]);
    tidy.
  all: split; [right; right; left; reflexivity|].
  all: split; [eexists; right; right; right; left; reflexivity|].
  all: intros c emb r Hin; cbn in Hin;
    repeat match goal with
           | H : _ \/ _ |- _ => destruct H
           | H : False |- _ => destruct H
           | H : _ = EvSend _ _ _ |- _ => try discriminate H; injection H as <- <- <-
           end;
    eexists; split; reflexivity.
Qed.

(** X14. When the provider raises, nothing is published: the error is logged
    and one notice with the first hundred characters of the error goes to
    the channel of the message. *)
Theorem translation_failure_is_reported message h d td e :
  passes_gates env config message = true ->
  detect_language env message (h ++ [EvLog INFO (auto_translating_text message)])
    = (Ok d, td) ->
  d <> "en" ->
  google_translate env (h ++ [EvLog INFO (auto_translating_text message)] ++ td)
    "en" (content message) = Raise e ->
  let before :=
    [EvLog INFO (auto_translating_text message)] ++ td ++
    [ EvTranslate "en" (content message) (Raise e);
      EvLog ERROR ("Auto-translation error: " +:+ e) ] in
  let notice := Text ("⚠️ Auto-translation failed: " +:+ Py.take 100 e) in
  on_message env config message h =
  (Ok tt,
   before ++
   [EvSend (channel_id (channel message)) notice
      (channel_send env (h ++ before) (channel message) notice)]).
Proof.
  intros Hg Hdet Hd Htr. cbn zeta.
  rewrite on_message_gated_in by exact Hg.
  apply String.eqb_neq in Hd.
  unfold bind at 1. unfold log at 1. cbn [level_enabled].
  unfold try_except at 1. unfold bind at 1.
  rewrite Hdet, Hd.
  unfold bind at 1. unfold await_translate at 1. cbn zeta.
  rewrite <- app_assoc, Htr.
  unfold bind, log, try_except, await_send, ret. cbn [level_enabled].
  rewrite <- ?app_assoc. cbn [app].
  rewrite <- ?app_assoc. cbn [app].
  destruct (channel_send env _ (channel message) _) as [[]|e']; cbn;
    rewrite <- ?app_assoc; reflexivity.
Qed.

End ListenerMore.

(** ** Truncation *)

Lemma take_length n : forall s, String.length (Py.take n s) = Nat.min n (String.length s).
Proof.
  unfold Py.take. induction n as [|n IH]; intros [|c s]; cbn; auto.
Qed.

Lemma take_all n : forall s, String.length s <= n -> Py.take n s = s.
Proof.
  unfold Py.take. induction n as [|n IH]; intros [|c s]; cbn; auto; intros H.
  - lia.
  - f_equal. apply IH. lia.
Qed.

Lemma string_length_append s1 s2 :
  String.length (s1 +:+ s2) = String.length s1 + String.length s2.
Proof. induction s1; cbn; auto. Qed.

Lemma string_append_empty s : s +:+ "" = s.
Proof. induction s; cbn; congruence. Qed.

(** X15. A text that fits is shown whole; a longer one is cut to the limit
    and marked with three dots, so what is shown is never longer than the
    limit plus three.  The two fields of a published translation are
    shown this way with the limit 500. *)
Theorem ellipsis_bounds n s message d translated :
  (String.length s <= n -> Py.ellipsis n s = s) /\
  (n < String.length s ->
     Py.ellipsis n s = Py.take n s +:+ "..." /\
     String.length (Py.ellipsis n s) = n + 3) /\
  String.length (Py.ellipsis n s) <= n + 3 /\
  Forall (fun f => String.length (snd (fst f)) <= 503)
    (embed_fields (translation_embed message d translated)).
Proof.
  assert (Hfit : String.length s <= n -> Py.ellipsis n s = s).
  { intros H. unfold Py.ellipsis. rewrite take_all by exact H.
    apply Nat.ltb_ge in H. rewrite H. apply string_append_empty. }
  assert (Hcut : n < String.length s ->
            Py.ellipsis n s = Py.take n s +:+ "..." /\
            String.length (Py.ellipsis n s) = n + 3).
  { intros H. unfold Py.ellipsis.
    assert (H' := H). apply Nat.ltb_lt in H'. rewrite H'. split; [reflexivity|].
    rewrite string_length_append, take_length. cbn. lia. }
  assert (Hbound : forall m x, String.length (Py.ellipsis m x) <= m + 3).
  { intros m x. unfold Py.ellipsis. rewrite string_length_append, take_length.
    destruct (m <? String.length x)%nat; cbn; lia. }
  split; [exact Hfit|]. split; [exact Hcut|]. split; [apply Hbound|].
  cbn [embed_fields translation_embed].
  constructor; [apply (Hbound 500) | constructor; [apply (Hbound 500) | constructor]].
Qed.

(** ** The fan-out *)

Section FanoutMore.
Variable env : Env.
Variable config : BotConfig.

(** X16. The count of the summary is the number of messages that reached a
    channel, and every destination is either among those or in the
    failed list. *)
Theorem sent_count_is_delivered mention clean ds :
  forall sent failed h,
  exists sent' failed' t,
    announce_loop env config mention clean ds (sent, failed) h
      = (Ok (sent', failed'), t) /\
    sent' = sent + length (delivered t) /\
    length failed' + length (delivered t) = length failed + length ds.
Proof.
  induction ds as [|[lang cid] ds IH]; intros sent failed h.
  - exists sent, failed, []. cbn. unfold ret. repeat split; lia.
  - destruct (announce_destination_total env config mention clean lang cid h)
      as (o & td & Hd).
    destruct (announce_destination_facts env config _ _ _ _ _ _ _ Hd)
      as (_ & Hdel & _).
    cbn [announce_loop]. unfold bind. rewrite Hd, record_spec.
    destruct (IH (sent + (if is_sent o then 1 else 0))
                 (failed ++ failure_label config lang o) (h ++ td))
      as (sent' & failed' & t & Hloop & Hsent & Hfailed).
    rewrite Hloop. exists sent', failed', (td ++ t).
    split; [reflexivity|].
    rewrite delivered_app. rewrite ?length_app in *.
    destruct o; cbn [is_sent failure_label length] in *; lia.
Qed.

(** X17. What is sent for a destination: the announcement header, then the
    body, then for a language other than [en] the English original; the
    body is the clean message for [en], and otherwise what the provider
    answered or, when it raised, the clean message. *)
Theorem destination_payload mention clean lang cid h :
  let td := snd (announce_destination env config mention clean lang cid h) in
  forall c p r,
    In (EvSend c p r) td ->
    exists body,
      p = Text (content_of mention (full_message_of lang clean body)) /\
      (lang = "en" -> body = clean /\ translator_calls td = 0) /\
      (lang <> "en" ->
         In (EvTranslate lang clean (Ok body)) td \/
         (body = clean /\ exists e, In (EvTranslate lang clean (Raise e)) td)).
Proof.
  cbn zeta. unfold announce_destination, translate_text, translator_calls.
  run_cases; cbn; intros c' p r Hin;
    repeat match goal with
           | H : _ \/ _ |- _ => destruct H
           | H : False |- _ => destruct H
           | H : _ = EvSend _ _ _ |- _ => try discriminate H; injection H as <- <- <-
           end.
  all: eexists; split; [reflexivity|]; split; intros; try congruence; eauto 8.
Qed.

Lemma destination_sends_shape mention clean lang cid h c p r :
  In (EvSend c p r) (snd (announce_destination env config mention clean lang cid h)) ->
  exists body, p = Text (content_of mention (full_message_of lang clean body)).
Proof.
  unfold announce_destination, translate_text.
  run_cases; cbn; intros Hin;
    repeat match goal with
           | H : _ \/ _ |- _ => destruct H
           | H : False |- _ => destruct H
           | H : _ = EvSend _ _ _ |- _ => try discriminate H; injection H as <- <- <-
           end; eauto.
Qed.

Lemma announce_loop_sends mention clean ds : forall st h c p r,
  In (EvSend c p r) (snd (announce_loop env config mention clean ds st h)) ->
  exists lang body, p = Text (content_of mention (full_message_of lang clean body)).
Proof.
  induction ds as [|[lang cid] ds IH]; intros st h c p r Hin.
  - destruct Hin.
  - cbn [announce_loop] in Hin. unfold bind in Hin.
    destruct (announce_destination_total env config mention clean lang cid h)
      as (o & td & Hd).
    rewrite Hd in Hin.
    destruct (announce_loop env config mention clean ds (record config lang o st) (h ++ td))
      as [r2 t2] eqn:Hloop.
    cbn [snd] in Hin. apply in_app_iff in Hin. destruct Hin as [Hin|Hin].
    + assert (Hp := destination_sends_shape mention clean lang cid h c p r).
      rewrite Hd in Hp. destruct (Hp Hin) as (body & ->). eauto.
    + eapply (IH (record config lang o st) (h ++ td)). rewrite Hloop. exact Hin.
Qed.

Lemma announce_sends ctx message h c p r :
  In (EvSend c p r) (snd (announce env config ctx message h)) ->
  exists lang body,
    p = Text (content_of (mention_requested message)
                (full_message_of lang (clean_of env message) body)).
Proof.
  unfold announce. cbn zeta.
  destruct (get_all_announcement_language_channels config (ctx_guild_id ctx))
    as [|d ds] eqn:Hget;
    unfold try_except, bind, announce_fanout, bind, await_ctx_send, log, ret.
  - destruct (ctx_send env h _) as [[]|e]; cbn.
    + intros [H|[]]; discriminate.
    + intros [H|[H|[H|[]]]]; discriminate.
  - destruct (mention_requested message) eqn:Hm; cbn [level_enabled].
    all: match goal with
         | |- context [announce_loop env config ?m ?cl ?l ?st] =>
             set (loop := announce_loop env config m cl l st);
             assert (Hloop : forall h' c p r, In (EvSend c p r) (snd (loop h')) ->
                       exists lang body,
                         p = Text (content_of m (full_message_of lang cl body)))
               by (intros h'; apply announce_loop_sends);
             clearbody loop
         end.
    all: repeat match goal with
                | |- context [ctx_send env ?hh ?s] =>
                    let E := fresh "E" in destruct (ctx_send env hh s) as [[]|?] eqn:E
                | Hl : forall h' c p r, In _ (snd (?L h')) -> _ |- context [?L ?hh] =>
                    let E := fresh "E" in
                    let H := fresh "H" in
                    assert (H := Hl hh);
                    destruct (L hh) as [[[? ?]|?] ?] eqn:E
                end; cbn [snd fst app] in *.
    all: intros Hin;
      repeat match goal with
             | H : In _ (_ ++ _) |- _ => apply in_app_iff in H
             | H : In _ (_ :: _) |- _ => destruct H
             | H : In _ [] |- _ => destruct H
             | H : _ \/ _ |- _ => destruct H
             | H : False |- _ => destruct H
             | H : _ = EvSend _ _ _ |- _ => discriminate H
             end; eauto.
Qed.

Lemma prefix_append a b : String.prefix a (a +:+ b) = true.
Proof.
  induction a as [|c a IH]; cbn; [now destruct b|].
  destruct (ascii_dec c c); [exact IH | congruence].
Qed.

(** X18. Every message of an announcement begins with the everyone mention
    exactly when the mention was asked for. *)
Theorem mention_marker_iff_requested ctx message h :
  forall c p r,
    In (EvSend c p r) (snd (announce env config ctx message h)) ->
    exists s,
      p = Text s /\
      Py.startswith s ("@everyone" +:+ Py.nl) = mention_requested message.
Proof.
  intros c p r Hin.
  destruct (announce_sends ctx message h c p r Hin) as (lang & body & ->).
  eexists. split; [reflexivity|].
  unfold Py.startswith, content_of, full_message_of.
  destruct (mention_requested message).
  - apply (prefix_append ("@everyone" +:+ Py.nl)).
  - destruct (String.eqb lang "en"); reflexivity.
Qed.

(** X19. Only a failure reply that cannot be sent lets an exception out of
    [announce]. *)
Theorem announce_raises_only_from_last_reply ctx message h :
  let '(r, t) := announce env config ctx message h in
  r = Ok tt \/
  exists e t0,
    r = Raise e /\
    t = t0 ++ [EvCtxSend "❌ Failed to send announcements. Please try again." (Raise e)].
Proof.
  unfold announce, try_except.
  match goal with
  | |- context [match ?body h with _ => _ end] => destruct (body h) as [[[]|e] t1]
  end; [left; reflexivity|].
  unfold bind, log, await_ctx_send. cbn [level_enabled].
  match goal with
  | |- context [ctx_send env ?hh ?s] => destruct (ctx_send env hh s) as [[]|e']
  end; [left; reflexivity | right].
  exists e', (t1 ++ [EvLog ERROR ("Announcement error: " +:+ e)]).
  split; [reflexivity|]. now rewrite <- app_assoc.
Qed.

End FanoutMore.

(** ** Lower case and trimming *)




Lemma lower_append a b : Py.lower (a +:+ b) = Py.lower a +:+ Py.lower b.
Proof. induction a as [|c a IH]; cbn [Py.lower String.append]; [reflexivity|]. now rewrite IH. Qed.









Lemma contains_append_r sub a b :
  Py.contains sub b = true -> Py.contains sub (a +:+ b) = true.
Proof.
  intros H. induction a as [|c a IH]; [exact H|].
  cbn [String.append Py.contains]. rewrite IH. apply orb_true_r.
Qed.

(** ** Looking things up by name *)

(** X22. [find_channel_by_name] gives the first channel of the guild whose
    lower-cased name is the lower-cased wanted name, and nothing when
    there is none, whatever [str.lower] does to the names; two wanted
    names with the same lower case find the same channel. *)
Theorem find_channel_by_name_first env chans name :
  match find_channel_by_name env chans name with
  | Some ch =>
      exists before after,
        chans = before ++ ch :: after /\
        str_lower env (channel_name ch) = str_lower env name /\
        Forall (fun c => str_lower env (channel_name c) <> str_lower env name) before
  | None => Forall (fun c => str_lower env (channel_name c) <> str_lower env name) chans
  end /\
  forall other,
    str_lower env other = str_lower env name ->
    find_channel_by_name env chans other = find_channel_by_name env chans name.
Proof.
  split.
  - induction chans as [|ch chans IH]; cbn [find_channel_by_name]; [constructor|].
    destruct (String.eqb (str_lower env (channel_name ch)) (str_lower env name)) eqn:E.
    + apply String.eqb_eq in E. exists [], chans. auto.
    + apply String.eqb_neq in E.
      destruct (find_channel_by_name env chans name) as [found|].
      * destruct IH as (before & after & -> & Hname & Hbefore).
        exists (ch :: before), after. auto.
      * constructor; auto.
  - intros other Hsame.
    induction chans as [|ch chans IH]; cbn [find_channel_by_name]; [reflexivity|].
    now rewrite Hsame, IH.
Qed.


(** ** Announcing to everyone, and a transport that does not fail *)

(** X20. [announce_everyone] always asks for the mention, so each of its
    messages begins with it. *)
Theorem announce_everyone_always_pings env config ctx message h :
  mention_requested (message +:+ " @everyone") = true /\
  forall c p r,
    In (EvSend c p r) (snd (announce_everyone env config ctx message h)) ->
    exists s, p = Text s /\ Py.startswith s ("@everyone" +:+ Py.nl) = true.
Proof.
  assert (Hm : mention_requested (message +:+ " @everyone") = true).
  { unfold mention_requested. rewrite lower_append.
    rewrite (contains_append_r "@everyone" (Py.lower message) (Py.lower " @everyone"))
      by reflexivity.
    apply orb_true_r. }
  split; [exact Hm|].
  intros c p r Hin. unfold announce_everyone in Hin.
  destruct (announce_sends env config ctx _ h c p r Hin) as (lang & body & ->).
  rewrite Hm. eexists. split; [reflexivity|].
  apply (prefix_append ("@everyone" +:+ Py.nl)).
Qed.

Section QuietTransport.
Variable env : Env.
Variable config : BotConfig.
Hypothesis typing_answers : forall h ch, typing env h ch = Ok tt.
Hypothesis send_answers : forall h ch p, channel_send env h ch p = Ok tt.

Lemma quiet_destination mention clean lang cid h :
  exists td,
    announce_destination env config mention clean lang cid h =
    (Ok (match get_channel env h cid with Some _ => Sent | None => ChannelNotFound end),
     td).
Proof.
  unfold announce_destination, translate_text. unfold_coro. cbn.
  rewrite ?app_nil_r.
  destruct (get_channel env h cid) as [ch|]; cbn; [|eauto].
  destruct (String.eqb lang "en"); cbn.
  - rewrite send_answers. cbn. eauto.
  - rewrite typing_answers. cbn.
    destruct (google_translate env _ lang clean); cbn;
      rewrite send_answers; cbn; eauto.
Qed.

Lemma quiet_outcomes mention clean ds : forall h,
  exists os t,
    fanout_outcomes env config mention clean ds h = (Ok os, t) /\
    ~ In SendFailed os /\
    ((forall h' id, get_channel env h' id <> None) -> os = repeat Sent (length ds)).
Proof.
  induction ds as [|[lang cid] ds IH]; intros h.
  - exists [], []. cbn. unfold ret. auto.
  - destruct (quiet_destination mention clean lang cid h) as (td & Hd).
    destruct (IH (h ++ td)) as (os & t & Hos & Hnone & Hall).
    cbn [fanout_outcomes]. unfold bind. rewrite Hd, Hos. cbn. unfold ret.
    eexists _, _. split; [reflexivity|]. split.
    + intros [Hbad|Hbad]; [|auto].
      destruct (get_channel env h cid); discriminate.
    + intros Hres. cbn. rewrite (Hall Hres).
      specialize (Hres h cid). destruct (get_channel env h cid); [reflexivity|congruence].
Qed.

Lemma all_sent_summary n : forall ds,
  length ds = n ->
  count_sent (repeat Sent n) = n /\ failed_labels config ds (repeat Sent n) = [].
Proof.
  induction n as [|n IH]; intros [|[l c] ds] Hlen; try discriminate; cbn; auto.
  injection Hlen as Hlen. destruct (IH ds Hlen) as [H1 H2].
  unfold count_sent in *. cbn. now rewrite H1, H2.
Qed.

(** X21. With a transport whose typing indicator and sends never raise, no
    destination ends as failed to send: the only failures are channels
    that do not resolve, whatever the provider does.  If every channel
    resolves as well, the summary counts all the destinations and lists
    no failure. *)
Theorem quiet_transport_reaches_every_channel mention clean ds h :
  exists os t,
    fanout_outcomes env config mention clean ds h = (Ok os, t) /\
    ~ In SendFailed os /\
    ((forall h' id, get_channel env h' id <> None) ->
       announce_loop env config mention clean ds (0, []) h = (Ok (length ds, []), t)).
Proof.
  destruct (quiet_outcomes mention clean ds h) as (os & t & Hos & Hnone & Hall).
  exists os, t. split; [exact Hos|]. split; [exact Hnone|].
  intros Hres.
  destruct (announce_loop_outcomes env config mention clean ds 0 [] h)
    as (os' & t' & Hos' & _ & Hloop).
  rewrite Hos in Hos'. injection Hos' as <- <-.
  rewrite Hloop, (Hall Hres).
  destruct (all_sent_summary (length ds) ds eq_refl) as [-> ->]. reflexivity.
Qed.

End QuietTransport.

(** ** The language commands *)

Section LanguageCommands.
Variable env : Env.
Variable disk : Storage.










End LanguageCommands.

(** ** Configuration and announcement together *)

Lemma lookup_in {V} (d : list (string * V)) k v : Dict.lookup d k = Some v -> In (k, v) d.
Proof.
  induction d as [|[k' v'] d IH]; cbn; [discriminate|].
  destruct (String.eqb k' k) eqn:E.
  - apply String.eqb_eq in E. intros [= ->]. subst. now left.
  - intros H. right. now apply IH.
Qed.

(** X27. Once a language has been given a channel in a guild, that pair is a
    destination of the guild, and [announce] there no longer stops at
    the missing configuration: its first reply is the progress notice. *)
Theorem announce_after_set_language_channel env disk ctx l ch c h message h' :
  let '(_, c', _) :=
    set_announcement_language_channel disk (ctx_guild_id ctx) l ch c h in
  In (l, ch) (get_all_announcement_language_channels c' (ctx_guild_id ctx)) /\
  exists noted r rest,
    snd (announce env c' ctx message h') =
      noted ++ EvCtxSend "🔄 Translating and sending announcements..." r :: rest /\
    Forall (fun e => match e with EvLog _ _ => True | _ => False end) noted.
Proof.
  rewrite set_announcement_language_channel_run. cbn zeta.
  set (c' := with_announcement_language_channels c _).
  assert (Hin : In (l, ch) (get_all_announcement_language_channels c' (ctx_guild_id ctx))).
  { apply lookup_in. unfold get_all_announcement_language_channels, c'.
    cbn [announcement_language_channels with_announcement_language_channels].
    now rewrite dict_get_set_same, lookup_set_same. }
  split; [exact Hin|].
  unfold announce. cbn zeta.
  destruct (get_all_announcement_language_channels c' (ctx_guild_id ctx))
    as [|d ds]; [destruct Hin|].
  unfold try_except, bind, log, ret, await_ctx_send.
  destruct (mention_requested message); cbn [level_enabled].
  - match goal with
    | |- context [ctx_send env ?hh "🔄 Translating and sending announcements..."] =>
        destruct (ctx_send env hh "🔄 Translating and sending announcements...")
          as [[]|e] eqn:E
    end.
    + destruct (announce_fanout env c' true (clean_of env message) (d :: ds) _) as [[[]|e] t].
      * eexists [_], _, _. split; [reflexivity | repeat constructor].
      * destruct (ctx_send env _ _); eexists [_], _, _;
          (split; [cbn; reflexivity | repeat constructor]).
    + destruct (ctx_send env _ _); eexists [_], _, _;
        (split; [cbn; reflexivity | repeat constructor]).
  - match goal with
    | |- context [ctx_send env ?hh "🔄 Translating and sending announcements..."] =>
        destruct (ctx_send env hh "🔄 Translating and sending announcements...")
          as [[]|e] eqn:E
    end.
    + destruct (announce_fanout env c' false (clean_of env message) (d :: ds) _) as [[[]|e] t].
      * eexists [], _, _. split; [reflexivity | constructor].
      * destruct (ctx_send env _ _); eexists [], _, _;
          (split; [cbn; reflexivity | constructor]).
    + destruct (ctx_send env _ _); eexists [], _, _;
        (split; [cbn; reflexivity | constructor]).
Qed.

(** X28. When the only language channel of a guild is removed, [announce]
    there is back to telling the caller that nothing is configured, and
    writes to no channel. *)
Theorem announce_after_last_channel_removed env disk ctx l ch c h message h' :
  get_all_announcement_language_channels c (ctx_guild_id ctx) = [(l, ch)] ->
  let '(_, c', _) :=
    remove_announcement_language_channel disk (ctx_guild_id ctx) l c h in
  get_all_announcement_language_channels c' (ctx_guild_id ctx) = [] /\
  exists r rest,
    snd (announce env c' ctx message h') = EvCtxSend (no_channels_text c') r :: rest /\
    send_attempts (snd (announce env c' ctx message h')) = [] /\
    translator_calls (snd (announce env c' ctx message h')) = 0.
Proof.
  intros Hget. rewrite remove_announcement_language_channel_run. cbn zeta.
  unfold get_all_announcement_language_channels in Hget. rewrite Hget.
  cbn [Dict.has]. rewrite String.eqb_refl. cbn [orb Dict.del]. rewrite String.eqb_refl.
  set (c' := with_announcement_language_channels c _).
  assert (Hnone : get_all_announcement_language_channels c' (ctx_guild_id ctx) = []).
  { unfold get_all_announcement_language_channels, c'.
    cbn [announcement_language_channels with_announcement_language_channels].
    apply dict_get_set_same. }
  split; [exact Hnone|].
  unfold announce. rewrite Hnone.
  unfold try_except, bind, log, await_ctx_send, send_attempts, translator_calls.
  cbn [level_enabled].
  destruct (ctx_send env h' (no_channels_text c')) as [[]|e]; cbn; [eauto|].
  destruct (ctx_send env _ _); cbn; eauto.
Qed.

(** ** Sample runs of the added properties *)

Lemma watched_channel_removed_witness :
  NoDup (auto_translate_channels demo_config) /\
  (let '(r, c', _) := remove_auto_translate_channel demo_disk 500 demo_config [] in
   r = Ok tt /\
   Py.mem 500 (auto_translate_channels c') = false /\
   (forall x, x <> 500%Z ->
      Py.mem x (auto_translate_channels c') = Py.mem x (auto_translate_channels demo_config)) /\
   NoDup (auto_translate_channels c')).
Proof.
  assert (Hnd : NoDup (auto_translate_channels demo_config))
    by (repeat constructor; cbn; tauto).
  split; [exact Hnd|].
  exact (watched_channel_removed demo_disk 500 demo_config [] Hnd).
Defined.

Lemma toggle_flips_watch_witness :
  let '(r, c', t) := toggle_auto_translate calm_env full_disk demo_inv None demo_config [] in
  auto_translate_channels c' =
    (if Py.mem 500 [500%Z] then list_remove 500 [500%Z] else [500%Z] ++ [500%Z]) /\
  Py.mem 500 (auto_translate_channels c')
    = negb (count_occ Z.eq_dec [500%Z] 500%Z =? 1)%nat /\
  (forall x, x <> 500%Z -> Py.mem x (auto_translate_channels c') = Py.mem x [500%Z]) /\
  (NoDup [500%Z] ->
     Py.mem 500 (auto_translate_channels c') = negb (Py.mem 500 [500%Z]) /\
     NoDup (auto_translate_channels c')) /\
  command_prefix c' = command_prefix demo_config /\
  (r = Ok tt \/
   exists e t0,
     r = Raise e /\
     t = t0 ++ [EvCtxSend "❌ Failed to toggle auto-translation." (Raise e)]).
Proof.
  exact (toggle_flips_watch calm_env full_disk demo_inv None demo_config []).
Defined.

Lemma toggle_twice_restores_witness :
  (count_occ Z.eq_dec (auto_translate_channels demo_config)
     (channel_id (inv_channel demo_inv)) <= 1)%nat /\
  inv_channel demo_inv = inv_channel demo_inv /\
  (let '(_, c1, _) := toggle_auto_translate calm_env demo_disk demo_inv None demo_config [] in
   let '(_, c2, _) := toggle_auto_translate calm_env full_disk demo_inv None c1 [] in
   forall x, Py.mem x (auto_translate_channels c2)
             = Py.mem x (auto_translate_channels demo_config)).
Proof.
  assert (Hle : (count_occ Z.eq_dec (auto_translate_channels demo_config)
                   (channel_id (inv_channel demo_inv)) <= 1)%nat)
    by (apply Nat.le_refl).
  split; [exact Hle|]. split; [reflexivity|].
  exact (toggle_twice_restores calm_env calm_env demo_disk full_disk demo_inv demo_inv
           None demo_config [] [] Hle eq_refl).
Defined.

Lemma toggled_off_channel_is_ignored_witness :
  count_occ Z.eq_dec (auto_translate_channels demo_config)
    (channel_id (inv_channel demo_inv)) = 1 /\
  channel_id (channel (demo_message "Bonjour")) = channel_id (inv_channel demo_inv) /\
  (let '(_, c', _) := toggle_auto_translate calm_env demo_disk demo_inv None demo_config [] in
   on_message calm_env c' (demo_message "Bonjour") [] = (Ok tt, [])).
Proof.
  split; [reflexivity|]. split; [reflexivity|].
  exact (toggled_off_channel_is_ignored calm_env demo_disk demo_inv None demo_config []
           calm_env (demo_message "Bonjour") [] eq_refl eq_refl).
Defined.

Lemma toggled_on_channel_is_translated_witness :
  let chosen := Some (demo_channel 999) in
  Py.mem 999 (auto_translate_channels demo_config) = false /\
  channel_id (channel unwatched_message) = 999%Z /\
  author_bot unwatched_message = false /\
  Py.startswith (content unwatched_message) (command_prefix demo_config) = false /\
  str_strip calm_env (content unwatched_message) <> "" /\
  (let '(_, c', _) := toggle_auto_translate calm_env demo_disk demo_inv chosen demo_config [] in
   passes_gates calm_env c' unwatched_message = true /\
   exists r, In (EvDetect (content unwatched_message) r)
               (snd (on_message calm_env c' unwatched_message []))).
Proof.
  cbn zeta.
  assert (Hblank : str_strip calm_env (content unwatched_message) <> "") by discriminate.
  split; [reflexivity|]. split; [reflexivity|].
  split; [reflexivity|]. split; [reflexivity|]. split; [exact Hblank|].
  exact (toggled_on_channel_is_translated calm_env demo_disk demo_inv
           (Some (demo_channel 999)) demo_config [] calm_env unwatched_message []
           eq_refl eq_refl eq_refl eq_refl Hblank).
Defined.

Lemma find_channel_by_name_first_witness :
  let chans := [ demo_channel 1;
                 {| channel_id := 2; channel_name := "Patch-Notes" |};
                 {| channel_id := 3; channel_name := "patch-notes" |} ] in
  str_lower calm_env "PATCH-NOTES" = str_lower calm_env "patch-notes" /\
  find_channel_by_name calm_env chans "PATCH-NOTES"
    = find_channel_by_name calm_env chans "patch-notes" /\
  find_channel_by_name calm_env chans "patch-notes"
    = Some {| channel_id := 2; channel_name := "Patch-Notes" |}.
Proof.
  cbn zeta. split; [reflexivity|]. split; [|reflexivity].
  exact (proj2 (find_channel_by_name_first calm_env
                  [ demo_channel 1;
                    {| channel_id := 2; channel_name := "Patch-Notes" |};
                    {| channel_id := 3; channel_name := "patch-notes" |} ]
                  "patch-notes") "PATCH-NOTES" eq_refl).
Defined.

Lemma detection_failure_is_unknown_witness :
  let message := demo_message "Bonjour" in
  let e := "you need to get an API_KEY" in
  let t := snd (on_message no_detector_env demo_config message []) in
  passes_gates no_detector_env demo_config message = true /\
  single_detection no_detector_env ([] ++ [EvLog INFO (auto_translating_text message)])
    (content message) = Raise e /\
  (In (EvLog WARNING ("Language detection failed: " +:+ e
                      +:+ ", proceeding with auto-detection")) t /\
   (exists r, In (EvTranslate "en" (content message) r) t) /\
   (forall c emb r,
      In (EvSend c (Embedded emb) r) t ->
      exists translated,
        emb = translation_embed message "auto" translated /\
        map (fun f => fst (fst f)) (embed_fields emb)
        = ["Original (Unknown)"; "Translation (English)"])).
Proof.
  cbn zeta. split; [reflexivity|]. split; [reflexivity|].
  exact (detection_failure_is_unknown no_detector_env demo_config (demo_message "Bonjour")
           [] "you need to get an API_KEY" eq_refl eq_refl).
Defined.

Lemma translation_failure_is_reported_witness :
  let message := demo_message "Bonjour" in
  let td := [ EvDetect "Bonjour" (Ok "fr"); EvLog INFO "Detected language: fr" ] in
  passes_gates no_provider_env demo_config message = true /\
  detect_language no_provider_env message
    ([] ++ [EvLog INFO (auto_translating_text message)]) = (Ok "fr", td) /\
  "fr" <> "en" /\
  google_translate no_provider_env
    ([] ++ [EvLog INFO (auto_translating_text message)] ++ td) "en" (content message)
    = Raise "provider unavailable" /\
  on_message no_provider_env demo_config message [] =
  (Ok tt,
   [ EvLog INFO (auto_translating_text message);
     EvDetect "Bonjour" (Ok "fr");
     EvLog INFO "Detected language: fr";
     EvTranslate "en" "Bonjour" (Raise "provider unavailable");
     EvLog ERROR "Auto-translation error: provider unavailable";
     EvSend 500 (Text "⚠️ Auto-translation failed: provider unavailable") (Ok tt) ]).
Proof.
  cbn zeta.
  assert (Hlang : "fr" <> "en") by discriminate.
  split; [reflexivity|]. split; [reflexivity|]. split; [exact Hlang|].
  split; [reflexivity|].
  exact (translation_failure_is_reported no_provider_env demo_config (demo_message "Bonjour")
           [] "fr" [ EvDetect "Bonjour" (Ok "fr"); EvLog INFO "Detected language: fr" ]
           "provider unavailable" eq_refl eq_refl Hlang eq_refl).
Defined.

Lemma destination_payload_witness :
  let td := snd (announce_destination calm_env demo_config false "Hello" "fr" 102 []) in
  let p := Text (content_of false (full_message_of "fr" "Hello" "[fr] Hello")) in
  In (EvSend 102 p (Ok tt)) td /\
  exists body,
    p = Text (content_of false (full_message_of "fr" "Hello" body)) /\
    ("fr" = "en" -> body = "Hello" /\ translator_calls td = 0) /\
    ("fr" <> "en" ->
       In (EvTranslate "fr" "Hello" (Ok body)) td \/
       (body = "Hello" /\ exists e, In (EvTranslate "fr" "Hello" (Raise e)) td)).
Proof.
  cbn zeta.
  assert (Hin : In (EvSend 102
                      (Text (content_of false (full_message_of "fr" "Hello" "[fr] Hello")))
                      (Ok tt))
                   (snd (announce_destination calm_env demo_config false "Hello" "fr" 102 [])))
    by (right; right; left; reflexivity).
  split; [exact Hin|].
  exact (destination_payload calm_env demo_config false "Hello" "fr" 102 [] _ _ _ Hin).
Defined.

Lemma mention_marker_iff_requested_witness :
  let message := "Patch notes are out --everyone" in
  let p := Text ("@everyone" +:+ Py.nl +:+ "**📢 Announcement**" +:+ Py.nl
                 +:+ "Patch notes are out") in
  In (EvSend 101 p (Ok tt)) (snd (announce calm_env demo_config demo_ctx message [])) /\
  exists s,
    p = Text s /\
    Py.startswith s ("@everyone" +:+ Py.nl) = mention_requested message.
Proof.
  cbn zeta.
  assert (Hin : In (EvSend 101
                      (Text ("@everyone" +:+ Py.nl +:+ "**📢 Announcement**" +:+ Py.nl
                             +:+ "Patch notes are out")) (Ok tt))
                   (snd (announce calm_env demo_config demo_ctx
                           "Patch notes are out --everyone" [])))
    by (right; right; left; reflexivity).
  split; [exact Hin|].
  exact (mention_marker_iff_requested calm_env demo_config demo_ctx
           "Patch notes are out --everyone" [] _ _ _ Hin).
Defined.

Lemma quiet_transport_reaches_every_channel_witness :
  (forall h ch, typing calm_env h ch = Ok tt) /\
  (forall h ch p, channel_send calm_env h ch p = Ok tt) /\
  exists os t,
    fanout_outcomes calm_env demo_config false "Hello"
      [("en", 101%Z); ("fr", 102%Z); ("de", 103%Z)] [] = (Ok os, t) /\
    ~ In SendFailed os /\
    ((forall h' id, get_channel calm_env h' id <> None) ->
       announce_loop calm_env demo_config false "Hello"
         [("en", 101%Z); ("fr", 102%Z); ("de", 103%Z)] (0, []) []
       = (Ok (length [("en", 101%Z); ("fr", 102%Z); ("de", 103%Z)], []), t)).
Proof.
  split; [reflexivity|]. split; [reflexivity|].
  exact (quiet_transport_reaches_every_channel calm_env demo_config
           (fun _ _ => eq_refl) (fun _ _ _ => eq_refl) false "Hello"
           [("en", 101%Z); ("fr", 102%Z); ("de", 103%Z)] []).
Defined.

Lemma announce_after_last_channel_removed_witness :
  get_all_announcement_language_channels single_config (ctx_guild_id demo_ctx)
    = [("en", 101%Z)] /\
  (let '(_, c', _) :=
     remove_announcement_language_channel demo_disk (ctx_guild_id demo_ctx) "en"
       single_config [] in
   get_all_announcement_language_channels c' (ctx_guild_id demo_ctx) = [] /\
   exists r rest,
     snd (announce calm_env c' demo_ctx "Hello" []) = EvCtxSend (no_channels_text c') r :: rest /\
     send_attempts (snd (announce calm_env c' demo_ctx "Hello" [])) = [] /\
     translator_calls (snd (announce calm_env c' demo_ctx "Hello" [])) = 0).
Proof.
  split; [reflexivity|].
  exact (announce_after_last_channel_removed calm_env demo_disk demo_ctx "en" 101
           single_config [] "Hello" [] eq_refl).
Defined.

(** A list with a channel twice, as a file edited by hand can hold:
    removing the channel once leaves it watched. *)
Example duplicate_watch_survives_removal :
  let c := with_auto_translate_channels demo_config [500%Z; 500%Z] in
  let '(_, c', _) := remove_auto_translate_channel demo_disk 500 c [] in
  Py.mem 500 (auto_translate_channels c') = true.
Proof. reflexivity. Qed.

(** So does toggling it: the message of the channel is still translated,
    and a second toggle is needed to turn the channel off. *)
Example duplicate_watch_survives_toggle :
  let c := with_auto_translate_channels demo_config [500%Z; 500%Z] in
  let '(_, c1, _) := toggle_auto_translate calm_env demo_disk demo_inv None c [] in
  let '(_, c2, _) := toggle_auto_translate calm_env demo_disk demo_inv None c1 [] in
  auto_translate_channels c1 = [500%Z] /\
  passes_gates calm_env c1 (demo_message "Bonjour") = true /\
  auto_translate_channels c2 = [].
Proof. repeat split; reflexivity. Qed.

(** Names and their normal forms. *)
Example language_names :
  get_language_code (Ok ["english"; "french"]) "  English " = Some "english" /\
  get_language_code (Ok ["english"; "french"]) "German" = Some "de" /\
  get_language_code (Raise "offline") "French" = Some "fr" /\
  get_language_code (Ok ["english"; "french"]) "klingon" = None.
Proof. repeat split; reflexivity. Qed.
